(** * Claim attempts: rate-limit display, admin query and admin clear

    A shallow embedding of

    - [calculateRateLimit], the closure of the user-history modal that
      derives the rate-limit banner from the claim attempts it holds, and
    - the [GET] and [POST] handlers of the route
      [/api/admin/claim-attempts],

    together with the properties the specification states about them.

    Conventions.  A JavaScript [Date] is represented by its time value, the
    integer number of milliseconds since the epoch: Mongoose [Date] fields
    hold valid dates, their JSON form is an ISO string that [new Date]
    parses back to the same time value, and every time value is an integer
    below [2^53], so that the subtraction [now.getTime() - 15 * 60 * 1000]
    and the comparisons of dates are exact integer operations.  Numbers
    that are lengths or differences of lengths are integers of [Z] as well.
    A number that may be [NaN] (the result of [parseInt]) is an
    [option Z], [None] standing for [NaN]. *)

From Stdlib Require Import ZArith List String Ascii Bool Lia Sorted Permutation.
From stdpp Require Import base option list strings numbers pretty.

Local Open Scope string_scope.
Local Open Scope list_scope.
Local Open Scope Z_scope.

(** ** The JavaScript built-ins the code calls *)

Module Js.

(** A string-valued field of a parsed JSON body or of the query string:
    [None] is [undefined] or [null]. *)
Abbreviation value := (option string).

(** [!!v] on such a field: only a non-empty string is truthy. *)
Definition truthy (v : value) : bool :=
  match v with
  | Some s => negb (String.eqb s "")
  | None => false
  end.

(** [v || d] where [d] is a string. *)
Definition or_else (v : value) (d : string) : string :=
  match v with
  | Some s => if String.eqb s "" then d else s
  | None => d
  end.

(** [v === s] for a string literal [s]. *)
Definition strict_eq (v : value) (s : string) : bool :=
  match v with
  | Some s' => String.eqb s' s
  | None => false
  end.

(** [arr.includes(v)] on an array of strings. *)
Definition includes (arr : list string) (v : value) : bool :=
  existsb (strict_eq v) arr.

(** [arr.slice(0, end)]: a [NaN] end is 0, a negative end counts from
    the back of the array, and the end is clamped to the length. *)
Definition slice0 {A} (arr : list A) (e : option Z) : list A :=
  match e with
  | None => []
  | Some n =>
      if n <? 0
      then take (Z.to_nat (Z.max (Z.of_nat (length arr) + n) 0)) arr
      else take (Z.to_nat n) arr
  end.

(** [arr.sort(cmp)]: the sort is stable, and for a comparator that is a
    consistent ordering every stable sort returns the same array; it is
    given here as the insertion sort that places an element before the
    first later element it does not have to follow. *)
Fixpoint insert {A} (cmp : A -> A -> Z) (x : A) (l : list A) : list A :=
  match l with
  | [] => [x]
  | y :: l' => if cmp x y <=? 0 then x :: y :: l' else y :: insert cmp x l'
  end.

Definition sort {A} (cmp : A -> A -> Z) (arr : list A) : list A :=
  foldr (insert cmp) [] arr.

(** [parseInt(s)] without a radix: leading white space is skipped, a
    sign is read, a [0x] or [0X] prefix selects base 16, and the longest
    prefix of digits is the value; no digit at all gives [NaN].  The
    white space recognised is the ASCII one, and the value is the exact
    integer: JavaScript also skips the Unicode white space, and rounds a
    value above [2^53] to a double. *)
Definition isWhite (c : ascii) : bool :=
  let n := N_of_ascii c in
  ((n =? 32) || ((9 <=? n) && (n <=? 13)))%N.

Fixpoint trimStart (s : string) : string :=
  match s with
  | String c s' => if isWhite c then trimStart s' else s
  | EmptyString => s
  end.

Definition digitValue (c : ascii) : option Z :=
  let n := Z.of_N (N_of_ascii c) in
  if (48 <=? n) && (n <=? 57) then Some (n - 48)
  else if (97 <=? n) && (n <=? 122) then Some (n - 87)
  else if (65 <=? n) && (n <=? 90) then Some (n - 55)
  else None.

Fixpoint digits (radix : Z) (s : string) (acc : option Z) : option Z :=
  match s with
  | String c s' =>
      match digitValue c with
      | Some d =>
          if d <? radix
          then digits radix s' (Some (default 0 acc * radix + d))
          else acc
      | None => acc
      end
  | EmptyString => acc
  end.

Definition parseInt (s : string) : option Z :=
  let s := trimStart s in
  let '(sign, s) :=
    match s with
    | String "-" r => (-1, r)
    | String "+" r => (1, r)
    | _ => (1, s)
    end in
  let '(radix, s) :=
    match s with
    | String "0" (String "x" r) | String "0" (String "X" r) => (16, r)
    | _ => (10, s)
    end in
  Z.mul sign <$> digits radix s None.

(** [arr.slice(start)]: a negative start counts from the back of the
    array. *)
Definition slice_from {A} (arr : list A) (start : Z) : list A :=
  if start <? 0
  then drop (Z.to_nat (Z.max (Z.of_nat (length arr) + start) 0)) arr
  else drop (Z.to_nat start) arr.

End Js.

(** ** Data model *)

(** An element of a user's [claim_attempts]; the client's [ClaimAttempt]
    interface has the same fields. *)
Record ClaimAttempt := {
  identifier : string;
  success : bool;
  timestamp : Z;
  item_id : option string
}.

(** ** The rate-limit display (user-history modal) *)

Record RateLimitInfo := {
  recentFailedAttempts : Z;
  isRateLimited : bool;
  remainingAttempts : Z
}.

(** [calculateRateLimit] closes over the component's [claimAttempts] state
    and reads the clock; both are arguments here. *)
Definition calculateRateLimit (claimAttempts : list ClaimAttempt) (now : Z)
  : RateLimitInfo :=
  let windowStart := now - 15 * 60 * 1000 in
  let recent :=
    List.filter
      (fun attempt => negb (success attempt) && (windowStart <=? timestamp attempt))
      claimAttempts in
  {| recentFailedAttempts := Z.of_nat (length recent);
     isRateLimited := 10 <=? Z.of_nat (length recent);
     remainingAttempts := Z.max 0 (10 - Z.of_nat (length recent)) |}.

(** The specification's reading of "recent failed": a failed attempt whose
    timestamp lies in the window [[now - 15 min, now]]. *)
Definition failedInWindow (now : Z) (a : ClaimAttempt) : Prop :=
  success a = false /\ now - 900000 <= timestamp a <= now.

(** What the code tests: a failed attempt not older than the start of the
    window. *)
Definition failedSince (now : Z) (a : ClaimAttempt) : Prop :=
  success a = false /\ now - 900000 <= timestamp a.

#[global] Instance failedInWindow_dec now a : Decision (failedInWindow now a).
Proof. unfold failedInWindow. apply _. Defined.

#[global] Instance failedSince_dec now a : Decision (failedSince now a).
Proof. unfold failedSince. apply _. Defined.

(** The number of elements of a list that satisfy a property. *)
Definition count {A} (P : A -> Prop) `{forall x, Decision (P x)} (l : list A) : Z :=
  Z.of_nat (length (filter P l)).

(** ** The admin route [/api/admin/claim-attempts] *)

(** A document of the [User] collection, with the fields the route reads.
    The handlers guard against a missing [claim_attempts] array, so the
    field is optional. *)
Record User := {
  _id : string;
  email : string;
  name : option string;
  claim_attempts : option (list ClaimAttempt)
}.

(** What [auth0.getSession()] resolves to: [null], or session data whose
    [user] may be missing and whose [user.email] may be missing. *)
Module Auth0.
Record User := { email : Js.value }.
Record SessionData := { user : option User }.
End Auth0.

(** The surroundings of one request: the session, what [isAdmin()]
    resolves to, and the clock read by [new Date()]. *)
Record Env := {
  getSession : option Auth0.SessionData;
  isAdmin : bool;
  now : Z
}.

(** [searchParams.get] of the three parameters of the query. *)
Record SearchParams := {
  param_email : Js.value;
  param_failed : Js.value;
  param_limit : Js.value
}.

(** The parsed body of a clear request, [{ userEmail, clearType }], with
    the fields as the admin page sends them: strings, or absent. *)
Record ClearBody := {
  userEmail : Js.value;
  clearType : Js.value
}.

Module WithUser.
Record ClaimAttemptWithUser := {
  userEmail : string;
  userName : option string;
  identifier : string;
  success : bool;
  timestamp : Z;
  item_id : option string
}.
End WithUser.
Abbreviation ClaimAttemptWithUser := WithUser.ClaimAttemptWithUser.

Record Stats := {
  totalAttempts : Z;
  failedAttempts : Z;
  successfulAttempts : Z;
  uniqueUsers : Z
}.

(** The three shapes of JSON the handlers answer with:
    [{ error }], [{ success: true, message }] and
    [{ success: true, claimAttempts, stats }]. *)
Inductive Json :=
| ErrorBody (error : string)
| MessageBody (message : string)
| AttemptsBody (claimAttempts : list ClaimAttemptWithUser) (stats : Stats).

Record Response := { body : Json; status : Z }.

(** [NextResponse.json(body, { status })]; the status defaults to 200. *)
Definition json (b : Json) (st : option Z) : Response :=
  {| body := b; status := default 200 st |}.

(** The object handed to [sanitizeDataForLogging] before and after the
    clear. *)
Record Counts := {
  claimAttemptsCount : Z;
  failedAttemptsCount : Z
}.

Module Details.
Record t := { clearType : string; attemptsClearedCount : Z }.
End Details.

(** The argument of one call of [logAdminAction] (the request object it
    also receives is left out).  [Snapshot] is the type of what
    [sanitizeDataForLogging] returns. *)
Record AuditEntry {Snapshot : Type} := {
  adminEmail : string;
  action : option string;
  resourceType : string;
  targetUserEmail : string;
  resourceId : string;
  details : Details.t;
  previousData : Snapshot;
  newData : Snapshot
}.
Arguments AuditEntry : clear implicits.

(** The state the handlers work on: the documents of the [User]
    collection in their natural order, and the audit records written so
    far. *)
Record World {Snapshot : Type} := {
  users : list User;
  auditLog : list (AuditEntry Snapshot)
}.
Arguments World : clear implicits.

Definition validClearTypes : list string := ["failed"; "all"; "rate-limit"].

Definition actionMap : list (string * string) :=
  [("failed", "CLEAR_CLAIM_ATTEMPTS_FAILED");
   ("all", "CLEAR_CLAIM_ATTEMPTS_ALL");
   ("rate-limit", "RESET_RATE_LIMIT")].

Definition messageMap : list (string * string) :=
  [("failed", "failed");
   ("all", "all");
   ("rate-limit", "rate limit (recent failed attempts)")].

(** [map[key]] on an object literal with these entries. *)
Definition property (map : list (string * string)) (key : string) : option string :=
  snd <$> List.find (fun kv => String.eqb (fst kv) key) map.

(** A value inside a template literal. *)
Definition interpolate (v : option string) : string := default "undefined" v.

(** [User.findOne({ email })]: the first document with that email, with
    its position in the collection, which is where [save] writes it
    back. *)
Definition User_findOne (docs : list User) (e : string) : option (nat * User) :=
  list_find (fun u => email u = e) docs.

(** The assignment [user.claim_attempts = attempts]. *)
Definition set_claim_attempts (user : User) (attempts : list ClaimAttempt) : User :=
  {| _id := _id user; email := email user; name := name user;
     claim_attempts := Some attempts |}.

(** The number of failed attempts of a list,
    [attempts.filter(attempt => !attempt.success).length]. *)
Definition failedCount (attempts : list ClaimAttempt) : Z :=
  Z.of_nat (length (List.filter (fun attempt => negb (success attempt)) attempts)).

(** The branch on [clearType] of the clear handler: what becomes of
    [user.claim_attempts]. *)
Definition clearAttempts (clearType : string) (now : Z)
    (claim_attempts : list ClaimAttempt) : list ClaimAttempt :=
  if String.eqb clearType "failed" then
    List.filter (fun attempt => success attempt) claim_attempts
  else if String.eqb clearType "rate-limit" then
    let windowStart := now - 15 * 60 * 1000 in
    List.filter
      (fun attempt => success attempt || (timestamp attempt <? windowStart))
      claim_attempts
  else [].

(** The rows one user contributes to the query: the inner [forEach] with
    its [push]. *)
Definition pushAttempts (failedOnly : bool) (user : User)
    (claimAttempts : list ClaimAttemptWithUser) : list ClaimAttemptWithUser :=
  match claim_attempts user with
  | Some attempts =>
      if 0 <? Z.of_nat (length attempts) then
        fold_left
          (fun acc attempt =>
             if negb failedOnly || negb (success attempt) then
               acc ++ [ {| WithUser.userEmail := email user;
                           WithUser.userName := name user;
                           WithUser.identifier := identifier attempt;
                           WithUser.success := success attempt;
                           WithUser.timestamp := timestamp attempt;
                           WithUser.item_id := item_id attempt |} ]
             else acc)
          attempts claimAttempts
      else claimAttempts
  | None => claimAttempts
  end.

(** The outer [forEach] over the users the query returned. *)
Definition collectAttempts (failedOnly : bool) (users : list User)
  : list ClaimAttemptWithUser :=
  fold_left (fun acc user => pushAttempts failedOnly user acc) users [].

(** The comparator of the sort, [b.timestamp - a.timestamp]. *)
Definition byTimestampDesc (a b : ClaimAttemptWithUser) : Z :=
  WithUser.timestamp b - WithUser.timestamp a.

Definition computeStats (claimAttempts : list ClaimAttemptWithUser) : Stats :=
  {| totalAttempts := Z.of_nat (length claimAttempts);
     failedAttempts :=
       Z.of_nat (length (List.filter (fun attempt => negb (WithUser.success attempt))
                                     claimAttempts));
     successfulAttempts :=
       Z.of_nat (length (List.filter (fun attempt => WithUser.success attempt)
                                     claimAttempts));
     uniqueUsers :=
       Z.of_nat (length (remove_dups (map WithUser.userEmail claimAttempts))) |}.

(** *** The handlers

    Two collaborators of the route are not part of it and are parameters
    here: [sanitizeDataForLogging] of the audit logger, and the query
    [User.find(query).select(..).sort({ "claim_attempts.timestamp": -1 })
    .limit(limit)] that the database runs.  The query receives the
    collection, the email of the filter ([None] for the empty filter) and
    the limit; [None] as its result is a rejected query, an exception in
    the handler. *)
Section Route.

Context {Snapshot : Type}.
Variable sanitizeDataForLogging : Counts -> Snapshot.
Variable User_find : list User -> option string -> option Z -> option (list User).

Definition unauthorized : Response := json (ErrorBody "Unauthorized") (Some 401).

Definition forbidden : Response :=
  json (ErrorBody "Forbidden: Admin access required") (Some 403).

Definition internalError : Response :=
  json (ErrorBody "Internal server error") (Some 500).

(** [GET]: the monitoring query.  It only reads the collection. *)
Definition GET (env : Env) (searchParams : SearchParams) (docs : list User)
  : Response :=
  match getSession env ≫= Auth0.user with
  | None => unauthorized
  | Some _ =>
  if negb (isAdmin env) then forbidden else
  let email := param_email searchParams in
  let failedOnly := Js.strict_eq (param_failed searchParams) "true" in
  let limit := Js.parseInt (Js.or_else (param_limit searchParams) "100") in
  let query := if Js.truthy email then email else None in
  match User_find docs query limit with
  | None => internalError
  | Some users =>
      let claimAttempts := collectAttempts failedOnly users in
      let claimAttempts := Js.sort byTimestampDesc claimAttempts in
      let claimAttempts := Js.slice0 claimAttempts limit in
      let stats := computeStats claimAttempts in
      json (AttemptsBody claimAttempts stats) None
  end
  end.

(** [POST]: the clear.  [body] is [None] when [request.json()] throws. *)
Definition POST (env : Env) (body : option ClearBody) (w : World Snapshot)
  : Response * World Snapshot :=
  match getSession env ≫= Auth0.user with
  | None => (unauthorized, w)
  | Some sessionUser =>
  if negb (isAdmin env) then (forbidden, w) else
  match body with
  | None => (internalError, w)
  | Some b =>
  if negb (Js.truthy (userEmail b)) then
    (json (ErrorBody "User email is required") (Some 400), w)
  else if negb (Js.includes validClearTypes (clearType b)) then
    (json (ErrorBody "Invalid clear type. Must be 'failed', 'all', or 'rate-limit'")
          (Some 400), w)
  else
  let userEmail := default "" (userEmail b) in
  let clearType := default "" (clearType b) in
  match User_findOne (users w) userEmail with
  | None => (json (ErrorBody "User not found") (Some 404), w)
  | Some (i, user) =>
      let attempts := default [] (claim_attempts user) in
      let previousAttempts := attempts in
      let previousData :=
        sanitizeDataForLogging
          {| claimAttemptsCount := Z.of_nat (length attempts);
             failedAttemptsCount := failedCount attempts |} in
      let attempts' := clearAttempts clearType (now env) attempts in
      let user' := set_claim_attempts user attempts' in
      let users' := <[i := user']> (users w) in
      let newData :=
        sanitizeDataForLogging
          {| claimAttemptsCount := Z.of_nat (length attempts');
             failedAttemptsCount := failedCount attempts' |} in
      let adminEmail := Auth0.email sessionUser in
      let auditLog' :=
        if Js.truthy adminEmail then
          auditLog w ++
          [ {| adminEmail := default "" adminEmail;
               action := property actionMap clearType;
               resourceType := "claimAttempts";
               targetUserEmail := userEmail;
               resourceId := _id user;
               details :=
                 {| Details.clearType := clearType;
                    Details.attemptsClearedCount :=
                      Z.of_nat (length previousAttempts)
                      - Z.of_nat (length attempts') |};
               previousData := previousData;
               newData := newData |} ]
        else auditLog w in
      let message := property messageMap clearType in
      (json (MessageBody
               ("Cleared " ++ interpolate message ++ " claim attempts for "
                ++ userEmail)%string)
            None,
       {| users := users'; auditLog := auditLog' |})
  end
  end
  end.

End Route.

(** ** The database query, as MongoDB runs it

    The query keeps the documents whose [email] equals the one of the
    filter, orders them by [claim_attempts.timestamp] descending and
    returns the first [limit] of them.  A descending sort on a field of an
    array compares the largest value in the array; a document without any
    value comes last.  A limit of 0 is no limit, and a negative limit
    stands for its absolute value.  A limit that is not a number is taken
    to be refused. *)
Definition latestAttempt (u : User) : option Z :=
  foldr (fun a m => Some (match m with Some t => Z.max (timestamp a) t
                                     | None => timestamp a end))
        None (default [] (claim_attempts u)).

Definition byLatestAttemptDesc (a b : User) : Z :=
  match latestAttempt a, latestAttempt b with
  | Some x, Some y => y - x
  | Some _, None => -1
  | None, Some _ => 1
  | None, None => 0
  end.

Definition matchesQuery (query : option string) (u : User) : bool :=
  match query with
  | Some e => String.eqb (email u) e
  | None => true
  end.

Definition mongoFind (docs : list User) (query : option string) (limit : option Z)
  : option (list User) :=
  let sorted := Js.sort byLatestAttemptDesc (List.filter (matchesQuery query) docs) in
  match limit with
  | Some n => Some (if n =? 0 then sorted else take (Z.to_nat (Z.abs n)) sorted)
  | None => None
  end.

(** ** The properties, as the specification words them *)

(** [r] is made of exactly the elements of [l] that satisfy [P], in their
    order in [l]: it is the largest sublist of [l] whose elements all
    satisfy [P]. *)
Definition retains {A} (P : A -> Prop) (l r : list A) : Prop :=
  r `sublist_of` l /\ Forall P r /\
  forall r', r' `sublist_of` l -> Forall P r' -> r' `sublist_of` r.

(** The request comes with a session that has a user, and [isAdmin()]
    holds. *)
Definition adminAuthenticated (env : Env) : Prop :=
  is_Some (getSession env ≫= Auth0.user) /\ isAdmin env = true.

(** An attempt that the rate-limit clear at [now] keeps: a success, or an
    attempt older than [now - 15 min]. *)
Definition successfulOrOld (now : Z) (a : ClaimAttempt) : Prop :=
  success a = true \/ timestamp a < now - 900000.

(** The email of a clear request is missing or empty. *)
Definition missingEmail (v : Js.value) : Prop := v = None \/ v = Some "".

(** The clear policy of a request is one of the three the route knows. *)
Definition recognizedPolicy (v : Js.value) : Prop :=
  v = Some "failed" \/ v = Some "all" \/ v = Some "rate-limit".

(** No document of the collection has the email. *)
Definition noUserMatches (docs : list User) (e : string) : Prop :=
  Forall (fun u => email u <> e) docs.

(** The row of the query for an attempt of a user. *)
Definition annotate (u : User) (a : ClaimAttempt) : ClaimAttemptWithUser :=
  {| WithUser.userEmail := email u;
     WithUser.userName := name u;
     WithUser.identifier := identifier a;
     WithUser.success := success a;
     WithUser.timestamp := timestamp a;
     WithUser.item_id := item_id a |}.

(** The rows of a user, all of them or the failed ones. *)
Definition rowsOf (failedOnly : bool) (u : User) : list ClaimAttemptWithUser :=
  map (annotate u)
      (List.filter (fun a => negb failedOnly || negb (success a))
                   (default [] (claim_attempts u))).

Definition sortedDesc (rows : list ClaimAttemptWithUser) : Prop :=
  StronglySorted (fun a b => WithUser.timestamp b <= WithUser.timestamp a) rows.

(** The contract of the query: [result] is the first [limit] rows of the
    rows of all the users that match the filter, most recent first. *)
Definition answersQuery (docs : list User) (query : option string)
    (failedOnly : bool) (limit : Z) (result : list ClaimAttemptWithUser) : Prop :=
  exists full,
    full ≡ₚ flat_map (rowsOf failedOnly) (List.filter (matchesQuery query) docs) /\
    sortedDesc full /\
    result = take (Z.to_nat limit) full.

(** ** Sample data *)

Definition attempt (id : string) (ok : bool) (t : Z) : ClaimAttempt :=
  {| identifier := id; success := ok; timestamp := t; item_id := None |}.

Definition minutes (n : Z) : Z := n * 60 * 1000.

(** The example of the specification, at [now = 0]: a failure 20 minutes
    ago, a failure 5 minutes ago and a success a minute ago. *)
Definition sampleAttempts : list ClaimAttempt :=
  [attempt "A1" false (minutes (-20));
   attempt "A2" false (minutes (-5));
   attempt "A3" true (minutes (-1))].

(** A failure stamped a second after the reading of the clock. *)
Definition futureFailure : ClaimAttempt := attempt "F" false 1000.

Definition alice : User :=
  {| _id := "u1"; email := "alice@example.com"; name := Some "Alice";
     claim_attempts := Some sampleAttempts |}.

Definition bob : User :=
  {| _id := "u2"; email := "bob@example.com"; name := None;
     claim_attempts := Some [attempt "B1" true (minutes (-2))] |}.

Definition sampleWorld : World Counts :=
  {| users := [alice; bob]; auditLog := [] |}.

Definition adminEnv : Env :=
  {| getSession :=
       Some {| Auth0.user := Some {| Auth0.email := Some "root@example.com" |} |};
     isAdmin := true; now := 0 |}.

(** An admin whose session carries no email. *)
Definition namelessAdminEnv : Env :=
  {| getSession := Some {| Auth0.user := Some {| Auth0.email := None |} |};
     isAdmin := true; now := 0 |}.

Definition visitorEnv : Env :=
  {| getSession :=
       Some {| Auth0.user := Some {| Auth0.email := Some "eve@example.com" |} |};
     isAdmin := false; now := 0 |}.

Definition anonymousEnv : Env :=
  {| getSession := None; isAdmin := false; now := 0 |}.

Definition clearRequest (e t : string) : option ClearBody :=
  Some {| userEmail := Some e; clearType := Some t |}.

(** Two users for the failed-only query: the latest attempt of [carol] is
    a success, the only attempt of [dave] is an older failure. *)
Definition carol : User :=
  {| _id := "u3"; email := "carol@example.com"; name := Some "Carol";
     claim_attempts := Some [attempt "C1" true (minutes (-1))] |}.

Definition dave : User :=
  {| _id := "u4"; email := "dave@example.com"; name := Some "Dave";
     claim_attempts := Some [attempt "D1" false (minutes (-5))] |}.

(** A hundred users whose only attempt is a success of the last two
    minutes. *)
Definition crowd : list User :=
  map (fun i : nat =>
         {| _id := pretty i;
            email := ("user" ++ pretty i ++ "@example.com")%string;
            name := None;
            claim_attempts :=
              Some [attempt "OK" true (minutes (-1) - Z.of_nat i)] |})
      (seq 0 100).

Definition failedOnly : SearchParams :=
  {| param_email := None; param_failed := Some "true"; param_limit := None |}.

Definition failedOnlyTop1 : SearchParams :=
  {| param_email := None; param_failed := Some "true"; param_limit := Some "1" |}.

Definition noParams : SearchParams :=
  {| param_email := None; param_failed := None; param_limit := None |}.

(** ** The client code: replies of the API, as it reads them *)

(** What a [catch] block receives: an [Error] with its message, or some
    other value. *)
Inductive Thrown :=
| ThrownError (message : string)
| ThrownOther.

(** [err instanceof Error ? err.message : fallback]. *)
Definition messageOf (err : Thrown) (fallback : string) : string :=
  match err with
  | ThrownError message => message
  | ThrownOther => fallback
  end.

(** The parsed JSON of a reply: [data.success], [data.error], and the
    field of [data] that the caller reads when [data.success] holds. *)
Module Reply.
Record t {A : Type} := { success : bool; error : Js.value; payload : A }.
Arguments t : clear implicits.
End Reply.

(** [await fetch(..)] followed by [await response.json()]: the two either
    throw or give the parsed JSON. *)
Inductive Fetched (A : Type) :=
| Rejected (err : Thrown)
| Resolved (data : Reply.t A).
Arguments Rejected {A} err.
Arguments Resolved {A} data.

(** The request went through: the reply came and has [success]; then the
    field the caller reads. *)
Definition accepted {A} (res : Fetched A) : option A :=
  match res with
  | Resolved data => if Reply.success data then Some (Reply.payload data) else None
  | Rejected _ => None
  end.

(** The text the server sent with a reply without [success], if any. *)
Definition serverError {A} (res : Fetched A) : option string :=
  match res with
  | Resolved data =>
      if Reply.success data then None
      else match Reply.error data with
           | Some e => if String.eqb e "" then None else Some e
           | None => None
           end
  | Rejected _ => None
  end.

Module HuntItem.
Record t := {
  _id : string;
  name : string;
  description : string;
  identifier : string;
  points : Z;
  createdAt : string
}.
End HuntItem.

Module HuntItemFormData.
Record t := {
  name : string;
  description : string;
  identifier : string;
  points : Z
}.
End HuntItemFormData.

Definition emptyFormData : HuntItemFormData.t :=
  {| HuntItemFormData.name := ""; HuntItemFormData.description := "";
     HuntItemFormData.identifier := ""; HuntItemFormData.points := 0 |}.

(** ** The hook [useHuntItems]

    The state of the hook is the record of its seven [useState] cells, and
    a setter replaces one cell.  An action of the hook is given by the
    state when it is called, which is the state its closure captured, and
    by the outcome of its request; its value is the state once the request
    has settled, no other update of the state having come in between. *)
Module useHuntItems.

Record State := {
  huntItems : list HuntItem.t;
  loading : bool;
  error : option string;
  editingItem : option HuntItem.t;
  showAddForm : bool;
  formData : HuntItemFormData.t;
  isSubmitting : bool
}.

Definition initial : State :=
  {| huntItems := []; loading := false; error := None; editingItem := None;
     showAddForm := false; formData := emptyFormData; isSubmitting := false |}.

Definition setHuntItems (v : list HuntItem.t) (st : State) : State :=
  {| huntItems := v; loading := loading st; error := error st;
     editingItem := editingItem st; showAddForm := showAddForm st;
     formData := formData st; isSubmitting := isSubmitting st |}.

Definition setLoading (v : bool) (st : State) : State :=
  {| huntItems := huntItems st; loading := v; error := error st;
     editingItem := editingItem st; showAddForm := showAddForm st;
     formData := formData st; isSubmitting := isSubmitting st |}.

Definition setError (v : option string) (st : State) : State :=
  {| huntItems := huntItems st; loading := loading st; error := v;
     editingItem := editingItem st; showAddForm := showAddForm st;
     formData := formData st; isSubmitting := isSubmitting st |}.

Definition setEditingItem (v : option HuntItem.t) (st : State) : State :=
  {| huntItems := huntItems st; loading := loading st; error := error st;
     editingItem := v; showAddForm := showAddForm st;
     formData := formData st; isSubmitting := isSubmitting st |}.

Definition setShowAddForm (v : bool) (st : State) : State :=
  {| huntItems := huntItems st; loading := loading st; error := error st;
     editingItem := editingItem st; showAddForm := v;
     formData := formData st; isSubmitting := isSubmitting st |}.

Definition setFormData (v : HuntItemFormData.t) (st : State) : State :=
  {| huntItems := huntItems st; loading := loading st; error := error st;
     editingItem := editingItem st; showAddForm := showAddForm st;
     formData := v; isSubmitting := isSubmitting st |}.

Definition setIsSubmitting (v : bool) (st : State) : State :=
  {| huntItems := huntItems st; loading := loading st; error := error st;
     editingItem := editingItem st; showAddForm := showAddForm st;
     formData := formData st; isSubmitting := v |}.

(** What a [try] block does with a reply without [success]: it throws
    [new Error(data.error || fallback)], and the [catch] block of the same
    action stores the message of that error. *)
Definition refused {A} (data : Reply.t A) (fallback : string) (st : State) : State :=
  setError (Some (messageOf (ThrownError (Js.or_else (Reply.error data) fallback))
                            fallback)) st.

(** [fetchHuntItems], up to its request and from its settling on. *)
Definition fetchHuntItems_begin (st : State) : State :=
  setError None (setLoading true st).

Definition fetchHuntItems_end (res : Fetched (list HuntItem.t)) (st : State) : State :=
  let st :=
    match res with
    | Resolved data =>
        if negb (Reply.success data)
        then refused data "Failed to fetch hunt items" st
        else setHuntItems (Reply.payload data) st
    | Rejected err =>
        setError (Some (messageOf err "Failed to fetch hunt items")) st
    end in
  setLoading false st.

Definition fetchHuntItems (res : Fetched (list HuntItem.t)) (st : State) : State :=
  fetchHuntItems_end res (fetchHuntItems_begin st).

(** [createHuntItem]: the request carries [formData]; the reply carries
    [data.huntItem]. *)
Definition createHuntItem_begin (st : State) : State :=
  setError None (setIsSubmitting true st).

Definition createHuntItem (res : Fetched HuntItem.t) (st : State) : State :=
  let huntItems := huntItems st in
  let st := createHuntItem_begin st in
  let st :=
    match res with
    | Resolved data =>
        if negb (Reply.success data)
        then refused data "Failed to create hunt item" st
        else
          setShowAddForm false
            (setFormData emptyFormData
               (setHuntItems (Reply.payload data :: huntItems) st))
    | Rejected err =>
        setError (Some (messageOf err "Failed to create hunt item")) st
    end in
  setIsSubmitting false st.

(** [updateHuntItem(item)]; the reply carries [data.huntItem]. *)
Definition updateHuntItem (item : HuntItem.t) (res : Fetched HuntItem.t)
    (st : State) : State :=
  let huntItems := huntItems st in
  let st := setError None st in
  match res with
  | Resolved data =>
      if negb (Reply.success data)
      then refused data "Failed to update hunt item" st
      else
        setEditingItem None
          (setHuntItems
             (map (fun huntItem =>
                     if String.eqb (HuntItem._id huntItem) (HuntItem._id item)
                     then Reply.payload data else huntItem)
                  huntItems)
             st)
  | Rejected err =>
      setError (Some (messageOf err "Failed to update hunt item")) st
  end.

(** [deleteHuntItem(id)]; [confirmed] is the answer to [confirm(..)]. *)
Definition deleteHuntItem (id : string) (confirmed : bool) (res : Fetched unit)
    (st : State) : State :=
  if negb confirmed then st else
  let huntItems := huntItems st in
  let st := setError None st in
  match res with
  | Resolved data =>
      if negb (Reply.success data)
      then refused data "Failed to delete hunt item" st
      else
        setHuntItems
          (List.filter (fun item => negb (String.eqb (HuntItem._id item) id))
                       huntItems)
          st
  | Rejected err =>
      setError (Some (messageOf err "Failed to delete hunt item")) st
  end.

(** The effect on [isOpen]: when the modal opens it starts
    [fetchHuntItems] and resets the rest of the state while the request is
    out; [res] is how the request settles. *)
Definition onOpen (isOpen : bool) (res : Fetched (list HuntItem.t)) (st : State)
  : State :=
  if isOpen then
    let st := fetchHuntItems_begin st in
    let st :=
      setIsSubmitting false
        (setFormData emptyFormData
           (setShowAddForm false (setEditingItem None (setError None st)))) in
    fetchHuntItems_end res st
  else st.

End useHuntItems.

(** ** The modal [UserHistoryDetailsModal] *)

(** The three clear policies a button of the modal can ask for, the type
    ["failed" | "all" | "rate-limit"]. *)
Inductive ClearType := ClearFailed | ClearAll | ClearRateLimit.

Definition clearTypeString (t : ClearType) : string :=
  match t with
  | ClearFailed => "failed"
  | ClearAll => "all"
  | ClearRateLimit => "rate-limit"
  end.

(** The colours of the rate-limit box: the red, the yellow and the green
    class names of its border and background. *)
Inductive BoxColor := Red | Yellow | Green.

(** The line of the box: "Rate Limited: r/10 failed attempts in last 15
    minutes", or "m attempts remaining (r/10 failed in last 15
    minutes)". *)
Inductive BoxText :=
| RateLimitedText (recentFailedAttempts : Z)
| RemainingText (remainingAttempts recentFailedAttempts : Z).

Module UserHistoryDetailsModal.

Record Props := {
  isOpen : bool;
  userId : Js.value;
  userName : string;
  userEmail : string
}.

(** [data.user] of the reply of [/api/users/{id}]. *)
Record UserData := {
  history : option (list HuntItem.t);
  claim_attempts : option (list ClaimAttempt)
}.

Record State := {
  userHistory : list HuntItem.t;
  claimAttempts : list ClaimAttempt;
  loading : bool;
  error : option string;
  isClearing : bool
}.

Definition initial : State :=
  {| userHistory := []; claimAttempts := []; loading := false; error := None;
     isClearing := false |}.

Definition setUserHistory (v : list HuntItem.t) (st : State) : State :=
  {| userHistory := v; claimAttempts := claimAttempts st; loading := loading st;
     error := error st; isClearing := isClearing st |}.

Definition setClaimAttempts (v : list ClaimAttempt) (st : State) : State :=
  {| userHistory := userHistory st; claimAttempts := v; loading := loading st;
     error := error st; isClearing := isClearing st |}.

Definition setLoading (v : bool) (st : State) : State :=
  {| userHistory := userHistory st; claimAttempts := claimAttempts st;
     loading := v; error := error st; isClearing := isClearing st |}.

Definition setError (v : option string) (st : State) : State :=
  {| userHistory := userHistory st; claimAttempts := claimAttempts st;
     loading := loading st; error := v; isClearing := isClearing st |}.

Definition setIsClearing (v : bool) (st : State) : State :=
  {| userHistory := userHistory st; claimAttempts := claimAttempts st;
     loading := loading st; error := error st; isClearing := v |}.

(** [fetchUserHistory]; the reply carries [data.user], which the code
    dereferences: without it the [try] block throws a [TypeError]. *)
Definition fetchUserHistory (props : Props)
    (res : Fetched (option UserData)) (st : State) : State :=
  if negb (Js.truthy (userId props)) then st else
  let st := setError None (setLoading true st) in
  let st :=
    match res with
    | Resolved data =>
        if Reply.success data then
          match Reply.payload data with
          | Some user =>
              setClaimAttempts (default [] (claim_attempts user))
                (setUserHistory (default [] (history user)) st)
          | None => setError (Some "Failed to fetch user history") st
          end
        else
          setError (Some (Js.or_else (Reply.error data)
                                     "Failed to fetch user history")) st
    | Rejected _ => setError (Some "Failed to fetch user history") st
    end in
  setLoading false st.

(** The body of the request of [clearClaimAttempts], when it sends one. *)
Definition clearClaimAttempts_request (props : Props) (clearType : ClearType)
    (confirmed : bool) : option (option ClearBody) :=
  if negb (Js.truthy (Some (userEmail props))) then None
  else if negb confirmed then None
  else Some (clearRequest (userEmail props) (clearTypeString clearType)).

(** [clearClaimAttempts(clearType)]; [confirmed] is the answer to
    [window.confirm(..)], [post] the outcome of the request to the route
    and [refetch] the outcome of the request of [fetchUserHistory]. *)
Definition clearClaimAttempts (props : Props) (clearType : ClearType)
    (confirmed : bool) (post : Fetched unit)
    (refetch : Fetched (option UserData)) (st : State) : State :=
  if negb (Js.truthy (Some (userEmail props))) then st else
  if negb confirmed then st else
  let st := setIsClearing true st in
  let st :=
    match post with
    | Resolved data =>
        if Reply.success data then fetchUserHistory props refetch st
        else
          setError (Some (Js.or_else (Reply.error data)
                                     "Failed to clear claim attempts")) st
    | Rejected _ => setError (Some "Failed to clear claim attempts") st
    end in
  setIsClearing false st.

(** The effect on [isOpen] and [userId]. *)
Definition onOpen (props : Props) (res : Fetched (option UserData)) (st : State)
  : State :=
  if isOpen props && Js.truthy (userId props)
  then fetchUserHistory props res st
  else st.

Definition handleClose (st : State) : State :=
  setError None (setClaimAttempts [] (setUserHistory [] st)).

(** The title of the modal, [History: ${userName || userEmail}]. *)
Definition title (props : Props) : string :=
  ("History: " ++ Js.or_else (Some (userName props)) (userEmail props))%string.

(** The body of the modal is [loading ? <p>Loading history...</p> : ...]:
    the rate-limit box, the heading of the attempts and their list belong
    to the second branch and are rendered only when [loading] is off. *)

(** The rate-limit box: absent while loading and without attempts, else
    coloured and worded after [calculateRateLimit()]. *)
Definition rateLimitBox (st : State) (now : Z) : option (BoxColor * BoxText) :=
  if loading st then None
  else if 0 <? Z.of_nat (length (claimAttempts st)) then
    let rateLimitInfo := calculateRateLimit (claimAttempts st) now in
    Some
      (if isRateLimited rateLimitInfo then Red
       else if 5 <? recentFailedAttempts rateLimitInfo then Yellow
       else Green,
       if isRateLimited rateLimitInfo
       then RateLimitedText (recentFailedAttempts rateLimitInfo)
       else RemainingText (remainingAttempts rateLimitInfo)
                          (recentFailedAttempts rateLimitInfo))
  else None.

(** The attempts listed, [claimAttempts.slice(-10).reverse()], and the
    two numbers of the heading, "Recent Claim Attempts (x of n)". *)
Definition listedAttempts (st : State) : list ClaimAttempt :=
  if loading st then []
  else reverse (Js.slice_from (claimAttempts st) (-10)).

Definition heading (st : State) : option (Z * Z) :=
  if loading st then None
  else Some (Z.of_nat (length (Js.slice_from (claimAttempts st) (-10))),
             Z.of_nat (length (claimAttempts st))).

End UserHistoryDetailsModal.

(** What the modal reads in an answer of the route: the route's
    [{ error }] bodies have no [success], its other bodies have
    [success: true]. *)
Definition replyOf (r : Response) : Reply.t unit :=
  match body r with
  | ErrorBody e =>
      {| Reply.success := false; Reply.error := Some e; Reply.payload := tt |}
  | MessageBody _ | AttemptsBody _ _ =>
      {| Reply.success := true; Reply.error := None; Reply.payload := tt |}
  end.

(** ** The component [Socials] *)

(** A rendered link: the [key] and [href] of the anchor, the [src] and
    [alt] of its image. *)
Record SocialLink := {
  link_key : string;
  href : string;
  src : string;
  alt : string
}.

(** [speakerName] is [speaker.name]; [socials] is [speaker.socials],
    given when present by its [Object.entries]; [variant] is the prop,
    ["light"] by default. *)
Definition Socials (speakerName : string)
    (socials : option (list (string * Js.value))) (variant : option string)
  : list SocialLink :=
  let variant := default "light" variant in
  match socials with
  | Some entries =>
      map (fun '(key, url) =>
             {| link_key := key;
                href := Js.or_else url "#";
                src := ("/icons/"
                        ++ (if String.eqb variant "dark"
                            then key ++ "-dark" else key)
                        ++ ".svg")%string;
                alt := (speakerName ++ " " ++ key)%string |})
          entries
  | None => []
  end.

(** ** The clear handler with its [try] and [catch]

    The handler awaits, inside its [try], six calls that are not part of
    the route: [auth0.getSession()], [isAdmin()], [connectMongoDB()],
    [User.findOne(..)], [user.save()] and [logAdminAction(..)].  Each may
    reject, and the [catch] then answers 500; [Rejections] tells which do.
    A [save] that rejects has stored nothing, and a [logAdminAction] that
    rejects has written no record, but it comes after the [save]. *)
Record Rejections := {
  getSession_rejects : bool;
  isAdmin_rejects : bool;
  connectMongoDB_rejects : bool;
  findOne_rejects : bool;
  save_rejects : bool;
  logAdminAction_rejects : bool
}.

Definition noRejection : Rejections :=
  {| getSession_rejects := false; isAdmin_rejects := false;
     connectMongoDB_rejects := false; findOne_rejects := false;
     save_rejects := false; logAdminAction_rejects := false |}.

(** Some awaited call rejects. *)
Definition someRejection (rej : Rejections) : Prop :=
  getSession_rejects rej = true \/ isAdmin_rejects rej = true \/
  connectMongoDB_rejects rej = true \/ findOne_rejects rej = true \/
  save_rejects rej = true \/ logAdminAction_rejects rej = true.

Section RouteWithCatch.

Context {Snapshot : Type}.
Variable sanitizeDataForLogging : Counts -> Snapshot.

Definition POST_try (rej : Rejections) (env : Env) (body : option ClearBody)
    (w : World Snapshot) : Response * World Snapshot :=
  let caught := json (ErrorBody "Internal server error") (Some 500) in
  if getSession_rejects rej then (caught, w) else
  match getSession env ≫= Auth0.user with
  | None => (json (ErrorBody "Unauthorized") (Some 401), w)
  | Some sessionUser =>
  if isAdmin_rejects rej then (caught, w) else
  if negb (isAdmin env) then
    (json (ErrorBody "Forbidden: Admin access required") (Some 403), w)
  else
  match body with
  | None => (caught, w)
  | Some b =>
  if negb (Js.truthy (userEmail b)) then
    (json (ErrorBody "User email is required") (Some 400), w)
  else if negb (Js.includes validClearTypes (clearType b)) then
    (json (ErrorBody "Invalid clear type. Must be 'failed', 'all', or 'rate-limit'")
          (Some 400), w)
  else
  let userEmail := default "" (userEmail b) in
  let clearType := default "" (clearType b) in
  if connectMongoDB_rejects rej then (caught, w) else
  if findOne_rejects rej then (caught, w) else
  match User_findOne (users w) userEmail with
  | None => (json (ErrorBody "User not found") (Some 404), w)
  | Some (i, user) =>
      let attempts := default [] (claim_attempts user) in
      let previousAttempts := attempts in
      let previousData :=
        sanitizeDataForLogging
          {| claimAttemptsCount := Z.of_nat (length attempts);
             failedAttemptsCount := failedCount attempts |} in
      let attempts' := clearAttempts clearType (now env) attempts in
      let user' := set_claim_attempts user attempts' in
      if save_rejects rej then (caught, w) else
      let users' := <[i := user']> (users w) in
      let newData :=
        sanitizeDataForLogging
          {| claimAttemptsCount := Z.of_nat (length attempts');
             failedAttemptsCount := failedCount attempts' |} in
      let adminEmail := Auth0.email sessionUser in
      let message := property messageMap clearType in
      let done :=
        json (MessageBody
                ("Cleared " ++ interpolate message ++ " claim attempts for "
                 ++ userEmail)%string)
             None in
      if Js.truthy adminEmail then
        if logAdminAction_rejects rej then
          (caught, {| users := users'; auditLog := auditLog w |})
        else
          (done,
           {| users := users';
              auditLog :=
                auditLog w ++
                [ {| adminEmail := default "" adminEmail;
                     action := property actionMap clearType;
                     resourceType := "claimAttempts";
                     targetUserEmail := userEmail;
                     resourceId := _id user;
                     details :=
                       {| Details.clearType := clearType;
                          Details.attemptsClearedCount :=
                            Z.of_nat (length previousAttempts)
                            - Z.of_nat (length attempts') |};
                     previousData := previousData;
                     newData := newData |} ] |})
      else (done, {| users := users'; auditLog := auditLog w |})
  end
  end
  end.

End RouteWithCatch.

Definition otherItem : HuntItem.t :=
  {| HuntItem._id := "h2"; HuntItem.name := "Map"; HuntItem.description := "";
     HuntItem.identifier := "M1"; HuntItem.points := 3;
     HuntItem.createdAt := "2026-01-02T00:00:00.000Z" |}.

(** A hunt item, and the same item renamed as an update returns it. *)
Definition sampleItem : HuntItem.t :=
  {| HuntItem._id := "h1"; HuntItem.name := "Key"; HuntItem.description := "";
     HuntItem.identifier := "K1"; HuntItem.points := 5;
     HuntItem.createdAt := "2026-01-01T00:00:00.000Z" |}.

Definition renamedItem : HuntItem.t :=
  {| HuntItem._id := "h1"; HuntItem.name := "Golden key";
     HuntItem.description := ""; HuntItem.identifier := "K1";
     HuntItem.points := 5; HuntItem.createdAt := "2026-01-01T00:00:00.000Z" |}.

(** A reply with [success] that carries [v]. *)
Definition ok {A} (v : A) : Fetched A :=
  Resolved {| Reply.success := true; Reply.error := None; Reply.payload := v |}.

(** * Properties *)

(** ** The examples of the specification *)

Example ten_recent_failures :
  calculateRateLimit (replicate 10 (attempt "X" false (minutes (-1)))) 0
  = {| recentFailedAttempts := 10; isRateLimited := true; remainingAttempts := 0 |}.
Proof. reflexivity. Qed.

Example rate_limit_clear_of_sample :
  clearAttempts "rate-limit" 0 sampleAttempts
  = [attempt "A1" false (minutes (-20)); attempt "A3" true (minutes (-1))].
Proof. reflexivity. Qed.

Example limit_defaults_to_100 :
  Js.parseInt (Js.or_else None "100") = Some 100 /\
  Js.parseInt (Js.or_else (Some "") "100") = Some 100 /\
  Js.parseInt (Js.or_else (Some "25") "100") = Some 25.
Proof. repeat split; reflexivity. Qed.

(** ** Lists *)

(** [Array.prototype.filter] with a boolean callback selects the elements
    that satisfy the property the callback decides. *)
Lemma filter_bool_Prop {A} (f : A -> bool) (P : A -> Prop) `{forall x, Decision (P x)}
    (l : list A) :
  (forall x, f x = true <-> P x) -> List.filter f l = filter P l.
Proof.
  intros Hf. induction l as [|x l IH]; [reflexivity|].
  cbn [List.filter]. rewrite filter_cons, IH.
  destruct (f x) eqn:E, (decide (P x)) as [p|np]; try reflexivity.
  - exfalso. apply np, Hf, E.
  - apply Hf in p. congruence.
Qed.

Lemma filter_bool_retains {A} (f : A -> bool) (P : A -> Prop) (l : list A) :
  (forall x, f x = true <-> P x) -> retains P l (List.filter f l).
Proof.
  intros Hf. repeat split.
  - induction l as [|x l IH]; cbn [List.filter]; [constructor|].
    destruct (f x); now constructor.
  - apply List.Forall_forall. intros x Hx.
    apply List.filter_In in Hx. apply Hf, Hx.
  - intros r' Hsub. induction Hsub as [|x r1 l1 _ IH|x r1 l1 _ IH]; intros HP.
    + constructor.
    + inversion HP as [|? ? Px HP']; subst.
      cbn [List.filter]. apply Hf in Px. rewrite Px.
      constructor. now apply IH.
    + cbn [List.filter]. destruct (f x); [constructor|]; now apply IH.
Qed.

(** The description [retains P l] fits one list only. *)
Lemma retains_unique {A} (P : A -> Prop) (l r1 r2 : list A) :
  retains P l r1 -> retains P l r2 -> r1 = r2.
Proof.
  intros (S1 & F1 & M1) (S2 & F2 & M2).
  apply (anti_symm sublist); auto.
Qed.

Lemma filter_bool_idempotent {A} (f : A -> bool) (l : list A) :
  List.filter f (List.filter f l) = List.filter f l.
Proof.
  induction l as [|x l IH]; [reflexivity|].
  cbn [List.filter]. destruct (f x) eqn:E; [|exact IH].
  cbn [List.filter]. now rewrite E, IH.
Qed.

Lemma filter_bool_none {A} (f : A -> bool) (l : list A) :
  (forall x, In x l -> f x = false) -> List.filter f l = [].
Proof.
  induction l as [|x l IH]; intros Hl; [reflexivity|].
  cbn [List.filter]. rewrite (Hl x (or_introl eq_refl)).
  apply IH. intros y Hy. apply Hl. now right.
Qed.

(** ** The rate-limit display *)

Lemma recentFailedAttempts_eq (l : list ClaimAttempt) (now : Z) :
  recentFailedAttempts (calculateRateLimit l now) = count (failedSince now) l.
Proof.
  unfold calculateRateLimit, count. cbn [recentFailedAttempts].
  f_equal. f_equal. apply filter_bool_Prop.
  intros a. unfold failedSince.
  rewrite andb_true_iff, negb_true_iff, Z.leb_le. reflexivity.
Qed.

Lemma remainingAttempts_eq (l : list ClaimAttempt) (now : Z) :
  remainingAttempts (calculateRateLimit l now)
  = Z.max 0 (10 - recentFailedAttempts (calculateRateLimit l now)).
Proof. reflexivity. Qed.

Lemma isRateLimited_eq (l : list ClaimAttempt) (now : Z) :
  isRateLimited (calculateRateLimit l now)
  = bool_decide (10 <= recentFailedAttempts (calculateRateLimit l now)).
Proof.
  unfold calculateRateLimit. cbn [isRateLimited recentFailedAttempts].
  destruct (Z.leb_spec 10 (Z.of_nat (length
    (List.filter (fun attempt => negb (success attempt) &&
       (now - 15 * 60 * 1000 <=? timestamp attempt)) l)))).
  - symmetry. now apply bool_decide_eq_true.
  - symmetry. apply bool_decide_eq_false. lia.
Qed.

Lemma count_app {A} (P : A -> Prop) `{forall x, Decision (P x)} (l1 l2 : list A) :
  count P (l1 ++ l2) = count P l1 + count P l2.
Proof. unfold count. rewrite list.filter_app, length_app. lia. Qed.

Lemma count_ext_in {A} (P Q : A -> Prop) `{forall x, Decision (P x)}
    `{forall x, Decision (Q x)} (l : list A) :
  (forall x, x ∈ l -> P x <-> Q x) -> count P l = count Q l.
Proof.
  intros HPQ. unfold count. f_equal. f_equal.
  induction l as [|x l IH]; [reflexivity|].
  rewrite !filter_cons. rewrite IH by (intros y Hy; apply HPQ; now right).
  destruct (decide (P x)) as [p|np], (decide (Q x)) as [q|nq]; try reflexivity.
  - exfalso. apply nq, (HPQ x); [left|exact p].
  - exfalso. apply np, (HPQ x); [left|exact q].
Qed.

(** C1, as amended.  For every list of claim attempts and every reading of
    the clock: [recentFailedAttempts] is the number of attempts that
    failed and whose timestamp is not older than [now - 15 min] (an
    attempt stamped later than [now] counts too); when no attempt is
    stamped later than [now] this is the number of failed attempts in the
    window [[now - 15 min, now]]; [isRateLimited] is
    [recentFailedAttempts >= 10]; and [remainingAttempts] is
    [max(0, 10 - recentFailedAttempts)]. *)
Theorem calculateRateLimit_spec (claimAttempts : list ClaimAttempt) (now : Z) :
  let info := calculateRateLimit claimAttempts now in
  recentFailedAttempts info = count (failedSince now) claimAttempts /\
  (Forall (fun a => timestamp a <= now) claimAttempts ->
   recentFailedAttempts info = count (failedInWindow now) claimAttempts) /\
  isRateLimited info = bool_decide (10 <= recentFailedAttempts info) /\
  remainingAttempts info = Z.max 0 (10 - recentFailedAttempts info).
Proof.
  cbv zeta. split; [apply recentFailedAttempts_eq|]. split; [|split].
  - intros Hpast. rewrite recentFailedAttempts_eq.
    apply count_ext_in. intros a Ha.
    rewrite list.Forall_forall in Hpast. specialize (Hpast a Ha).
    unfold failedSince, failedInWindow. intuition lia.
  - apply isRateLimited_eq.
  - apply remainingAttempts_eq.
Qed.

(** The amended C1 on the example of the specification, where every
    attempt lies in the past. *)
Lemma calculateRateLimit_spec_witness :
  recentFailedAttempts (calculateRateLimit sampleAttempts 0)
  = count (failedInWindow 0) sampleAttempts.
Proof.
  apply (proj1 (proj2 (calculateRateLimit_spec sampleAttempts 0))).
  repeat constructor; vm_compute; discriminate.
Defined.

(** C1 as stated fails: a failed attempt stamped one second after the
    reading of the clock is outside the window [[now - 15 min, now]], and
    the code counts it. *)
Lemma calculateRateLimit_counts_future_attempt :
  recentFailedAttempts (calculateRateLimit [futureFailure] 0) = 1 /\
  count (failedInWindow 0) [futureFailure] = 0 /\
  recentFailedAttempts (calculateRateLimit [futureFailure] 0)
  <> count (failedInWindow 0) [futureFailure].
Proof. split; [|split]; [reflexivity | reflexivity | discriminate]. Qed.

(** C4.  Appending a failed attempt whose timestamp is inside the window
    never decreases [recentFailedAttempts] (it grows by one) and never
    increases [remainingAttempts]. *)
Theorem calculateRateLimit_monotonic (claimAttempts : list ClaimAttempt)
    (now : Z) (a : ClaimAttempt) :
  failedInWindow now a ->
  let before := calculateRateLimit claimAttempts now in
  let after := calculateRateLimit (claimAttempts ++ [a]) now in
  recentFailedAttempts before <= recentFailedAttempts after /\
  remainingAttempts after <= remainingAttempts before /\
  recentFailedAttempts after = recentFailedAttempts before + 1.
Proof.
  intros [Hfail [Hlo Hhi]]. cbv zeta.
  pose proof (recentFailedAttempts_eq claimAttempts now) as R1.
  pose proof (recentFailedAttempts_eq (claimAttempts ++ [a]) now) as R2.
  pose proof (remainingAttempts_eq claimAttempts now) as M1.
  pose proof (remainingAttempts_eq (claimAttempts ++ [a]) now) as M2.
  assert (Hone : count (failedSince now) [a] = 1).
  { unfold count. rewrite filter_cons, filter_nil.
    destruct (decide (failedSince now a)) as [_|n]; [reflexivity|].
    exfalso. apply n. split; assumption. }
  rewrite count_app, Hone in R2.
  rewrite M1, M2, R2, R1. lia.
Qed.

(** C4 on the example of the specification, with one more failure three
    minutes ago. *)
Lemma calculateRateLimit_monotonic_witness :
  failedInWindow 0 (attempt "A4" false (minutes (-3))) /\
  recentFailedAttempts (calculateRateLimit sampleAttempts 0)
  <= recentFailedAttempts
       (calculateRateLimit (sampleAttempts ++ [attempt "A4" false (minutes (-3))]) 0)
  /\ remainingAttempts
       (calculateRateLimit (sampleAttempts ++ [attempt "A4" false (minutes (-3))]) 0)
     <= remainingAttempts (calculateRateLimit sampleAttempts 0).
Proof.
  assert (Hin : failedInWindow 0 (attempt "A4" false (minutes (-3)))).
  { split; [reflexivity|]. vm_compute. split; discriminate. }
  split; [exact Hin|].
  destruct (calculateRateLimit_monotonic sampleAttempts 0
              (attempt "A4" false (minutes (-3))) Hin) as (H1 & H2 & _).
  split; assumption.
Defined.

(** ** The clear policies on a list *)

Lemma clearAttempts_failed (now : Z) (l : list ClaimAttempt) :
  retains (fun a => success a = true) l (clearAttempts "failed" now l).
Proof.
  unfold clearAttempts. cbn [String.eqb Ascii.eqb Bool.eqb andb].
  apply filter_bool_retains. intros a. reflexivity.
Qed.

Lemma clearAttempts_all (now : Z) (l : list ClaimAttempt) :
  clearAttempts "all" now l = [].
Proof. reflexivity. Qed.

Lemma clearAttempts_rate_limit (now : Z) (l : list ClaimAttempt) :
  retains (successfulOrOld now) l (clearAttempts "rate-limit" now l).
Proof.
  unfold clearAttempts. cbn [String.eqb Ascii.eqb Bool.eqb andb].
  apply filter_bool_retains. intros a. unfold successfulOrOld.
  rewrite orb_true_iff, Z.ltb_lt. reflexivity.
Qed.

Lemma clearAttempts_idempotent (t : string) (now : Z) (l : list ClaimAttempt) :
  clearAttempts t now (clearAttempts t now l) = clearAttempts t now l.
Proof.
  unfold clearAttempts.
  destruct (String.eqb t "failed"); [apply filter_bool_idempotent|].
  destruct (String.eqb t "rate-limit"); [apply filter_bool_idempotent|].
  reflexivity.
Qed.

(** A later rate-limit clear finds nothing more to drop, as long as no
    attempt was recorded in between. *)
Lemma clearAttempts_rate_limit_later (now now' : Z) (l : list ClaimAttempt) :
  now <= now' ->
  clearAttempts "rate-limit" now' (clearAttempts "rate-limit" now l)
  = clearAttempts "rate-limit" now l.
Proof.
  intros Hle. unfold clearAttempts. cbn [String.eqb Ascii.eqb Bool.eqb andb].
  induction l as [|a l IH]; [reflexivity|]. cbn [List.filter].
  destruct (success a || (timestamp a <? now - 15 * 60 * 1000)) eqn:E;
    [|exact IH].
  cbn [List.filter]. rewrite IH.
  replace (success a || (timestamp a <? now' - 15 * 60 * 1000)) with true;
    [reflexivity|].
  symmetry. apply orb_true_iff. apply orb_true_iff in E as [Hs|Ho];
    [now left|right]. apply Z.ltb_lt in Ho. apply Z.ltb_lt. lia.
Qed.

(** C10.  After a rate-limit clear, the rate-limit computation at the
    same reading of the clock finds no recent failure. *)
Theorem rate_limit_clear_resets (l : list ClaimAttempt) (now : Z) :
  calculateRateLimit (clearAttempts "rate-limit" now l) now
  = {| recentFailedAttempts := 0; isRateLimited := false; remainingAttempts := 10 |}.
Proof.
  unfold calculateRateLimit.
  rewrite filter_bool_none; [reflexivity|].
  intros a Ha. unfold clearAttempts in Ha.
  cbn [String.eqb Ascii.eqb Bool.eqb andb] in Ha.
  apply List.filter_In in Ha as [_ Ha].
  apply orb_true_iff in Ha as [Hs|Ho].
  - now rewrite Hs.
  - apply Z.ltb_lt in Ho. apply andb_false_iff. right. apply Z.leb_gt. exact Ho.
Qed.

(** ** The tests on the fields of a request *)

Lemma truthy_true (v : Js.value) :
  Js.truthy v = true <-> exists s, v = Some s /\ s <> "".
Proof.
  destruct v as [s|]; cbn [Js.truthy].
  - rewrite negb_true_iff, String.eqb_neq. split.
    + intros Hs. exists s. now split.
    + intros (s' & [= <-] & Hs). exact Hs.
  - split; [discriminate|]. intros (s & [=] & _).
Qed.

Lemma truthy_false (v : Js.value) :
  Js.truthy v = false <-> v = None \/ v = Some "".
Proof.
  destruct v as [s|]; cbn [Js.truthy].
  - rewrite negb_false_iff, String.eqb_eq. split.
    + intros ->. now right.
    + intros [[=]|[= ->]]. reflexivity.
  - split; [now left|reflexivity].
Qed.

Lemma includes_validClearTypes (v : Js.value) :
  Js.includes validClearTypes v = true <->
  exists t, v = Some t /\ (t = "failed" \/ t = "all" \/ t = "rate-limit").
Proof.
  unfold Js.includes, validClearTypes. cbn [existsb].
  destruct v as [t|]; cbn [Js.strict_eq].
  - rewrite !orb_true_iff, !String.eqb_eq. split.
    + intros H. exists t. split; [reflexivity|]. intuition discriminate.
    + intros (t' & [= <-] & H). tauto.
  - split; [discriminate|]. intros (t & [=] & _).
Qed.

(** ** The collection *)

Lemma failedCount_eq (l : list ClaimAttempt) :
  failedCount l = count (fun a => success a = false) l.
Proof.
  unfold failedCount, count. f_equal. f_equal.
  apply filter_bool_Prop. intros a. apply negb_true_iff.
Qed.

Lemma recognizedPolicy_includes (v : Js.value) :
  Js.includes validClearTypes v = true <-> recognizedPolicy v.
Proof.
  rewrite includes_validClearTypes. unfold recognizedPolicy. split.
  - intros (t & -> & [-> | [-> | ->]]); auto.
  - intros [-> | [-> | ->]]; eexists; split; eauto.
Qed.

Lemma User_findOne_lookup (docs : list User) (e : string) i u :
  User_findOne docs e = Some (i, u) -> docs !! i = Some u /\ email u = e.
Proof.
  unfold User_findOne. intros H. apply list_find_Some in H as (H1 & H2 & _).
  now split.
Qed.

Lemma User_findOne_none (docs : list User) (e : string) :
  User_findOne docs e = None <-> noUserMatches docs e.
Proof. unfold User_findOne, noUserMatches. apply list_find_None. Qed.

(** Writing a document back with its email unchanged does not move it. *)
Lemma User_findOne_insert (docs : list User) (e : string) i u u' :
  User_findOne docs e = Some (i, u) ->
  email u' = e ->
  User_findOne (<[i := u']> docs) e = Some (i, u').
Proof.
  unfold User_findOne. intros H He.
  apply list_find_Some in H as (Hi & Hu & Hmin).
  apply list_find_Some. split; [|split].
  - apply list_lookup_insert_eq. eapply lookup_lt_Some, Hi.
  - exact He.
  - intros j y Hj Hlt. rewrite list_lookup_insert_ne in Hj by lia.
    eapply Hmin; eassumption.
Qed.

Lemma set_claim_attempts_twice (u : User) (l1 l2 : list ClaimAttempt) :
  set_claim_attempts (set_claim_attempts u l1) l2 = set_claim_attempts u l2.
Proof. reflexivity. Qed.

(** ** The clear handler *)

Section ClearHandler.

Context {Snapshot : Type}.
Variable sanitizeDataForLogging : Counts -> Snapshot.

Local Abbreviation clear := (POST sanitizeDataForLogging).

Lemma POST_no_session env req (w : World Snapshot) :
  getSession env ≫= Auth0.user = None ->
  clear env req w = ({| body := ErrorBody "Unauthorized"; status := 401 |}, w).
Proof. intros H. unfold POST. now rewrite H. Qed.

Lemma POST_not_admin env req (w : World Snapshot) :
  is_Some (getSession env ≫= Auth0.user) ->
  isAdmin env = false ->
  clear env req w
  = ({| body := ErrorBody "Forbidden: Admin access required"; status := 403 |}, w).
Proof. intros [su H] Hadm. unfold POST. now rewrite H, Hadm. Qed.

(** The run of a request that passes every check. *)
Lemma POST_success env (w : World Snapshot) su e t i u :
  getSession env ≫= Auth0.user = Some su ->
  isAdmin env = true ->
  e <> "" ->
  t = "failed" \/ t = "all" \/ t = "rate-limit" ->
  User_findOne (users w) e = Some (i, u) ->
  let before := default [] (claim_attempts u) in
  let after := clearAttempts t (now env) before in
  clear env (clearRequest e t) w =
  ({| body := MessageBody ("Cleared " ++ interpolate (property messageMap t)
                           ++ " claim attempts for " ++ e)%string;
      status := 200 |},
   {| users := <[i := set_claim_attempts u after]> (users w);
      auditLog :=
        if Js.truthy (Auth0.email su) then
          auditLog w ++
          [ {| adminEmail := default "" (Auth0.email su);
               action := property actionMap t;
               resourceType := "claimAttempts";
               targetUserEmail := e;
               resourceId := _id u;
               details :=
                 {| Details.clearType := t;
                    Details.attemptsClearedCount :=
                      Z.of_nat (length before) - Z.of_nat (length after) |};
               previousData :=
                 sanitizeDataForLogging
                   {| claimAttemptsCount := Z.of_nat (length before);
                      failedAttemptsCount := failedCount before |};
               newData :=
                 sanitizeDataForLogging
                   {| claimAttemptsCount := Z.of_nat (length after);
                      failedAttemptsCount := failedCount after |} |} ]
        else auditLog w |}).
Proof.
  intros Hsu Hadm He Ht Hfind. cbv zeta.
  unfold POST, clearRequest. rewrite Hsu, Hadm. cbn [negb].
  cbn [userEmail clearType].
  assert (Htr : Js.truthy (Some e) = true) by (apply truthy_true; eauto).
  assert (Hin : Js.includes validClearTypes (Some t) = true)
    by (apply includes_validClearTypes; eauto).
  rewrite Htr, Hin. cbn [negb]. cbv zeta. cbn [default]. unfold id.
  rewrite Hfind. reflexivity.
Qed.

(** A response with status 200 comes from such a run only. *)
Lemma POST_200_inv env req (w : World Snapshot) :
  status (clear env req w).1 = 200 ->
  exists su e t i u,
    getSession env ≫= Auth0.user = Some su /\
    isAdmin env = true /\
    req = clearRequest e t /\
    e <> "" /\
    (t = "failed" \/ t = "all" \/ t = "rate-limit") /\
    User_findOne (users w) e = Some (i, u).
Proof.
  unfold POST.
  destruct (getSession env ≫= Auth0.user) as [su|] eqn:Hsu; [|discriminate].
  destruct (isAdmin env) eqn:Hadm; [|discriminate]. cbn [negb].
  destruct req as [[ue ct]|]; [|discriminate]. cbn [userEmail clearType].
  destruct (Js.truthy ue) eqn:Htr; [|discriminate]. cbn [negb].
  destruct (Js.includes validClearTypes ct) eqn:Hin; [|discriminate]. cbn [negb].
  apply truthy_true in Htr as (e & -> & He).
  apply includes_validClearTypes in Hin as (t & -> & Ht).
  cbv zeta. cbn [default]. unfold id.
  destruct (User_findOne (users w) e) as [[i u]|] eqn:Hfind; [|discriminate].
  intros _. exists su, e, t, i, u. repeat split; assumption.
Qed.

(** A request either leaves the state as it is or is answered with 200. *)
Lemma POST_rejected_or_200 env req (w : World Snapshot) :
  (clear env req w).2 = w \/ status (clear env req w).1 = 200.
Proof.
  unfold POST.
  destruct (getSession env ≫= Auth0.user); [|now left].
  destruct (isAdmin env); [|now left]. cbn [negb].
  destruct req as [b|]; [|now left].
  destruct (Js.truthy (userEmail b)); [|now left]. cbn [negb].
  destruct (Js.includes validClearTypes (clearType b)); [|now left].
  cbn [negb]. cbv zeta.
  cbn [default]. unfold id.
  destruct (User_findOne (users w) _) as [[j x]|]; [now right|now left].
Qed.

(** C2.  For a clear that passes the checks, on the user found for the
    email: the document stored in the place of that user afterwards has
    the same [_id], [email] and [name], and its [claim_attempts] are, for
    [failed], exactly the successful attempts in their original order;
    for [all], the empty list; for [rate-limit], exactly the attempts
    that are successful or older than [now - 15 min], in their original
    order.  The other documents are untouched. *)
Theorem POST_clear_result env (w : World Snapshot) e t i u :
  adminAuthenticated env ->
  e <> "" ->
  t = "failed" \/ t = "all" \/ t = "rate-limit" ->
  User_findOne (users w) e = Some (i, u) ->
  let before := default [] (claim_attempts u) in
  let stored := users (clear env (clearRequest e t) w).2 in
  exists u' after,
    stored !! i = Some u' /\
    claim_attempts u' = Some after /\
    _id u' = _id u /\ email u' = email u /\ name u' = name u /\
    length stored = length (users w) /\
    (forall j, j <> i -> stored !! j = users w !! j) /\
    (t = "failed" -> retains (fun a => success a = true) before after) /\
    (t = "all" -> after = []) /\
    (t = "rate-limit" -> retains (successfulOrOld (now env)) before after).
Proof.
  intros [[su Hsu] Hadm] He Ht Hfind. cbv zeta.
  rewrite (POST_success env w su e t i u Hsu Hadm He Ht Hfind).
  cbn [snd users].
  destruct (User_findOne_lookup _ _ _ _ Hfind) as [Hi _].
  exists (set_claim_attempts u
            (clearAttempts t (now env) (default [] (claim_attempts u)))),
         (clearAttempts t (now env) (default [] (claim_attempts u))).
  split; [apply list_lookup_insert_eq; eapply lookup_lt_Some, Hi|].
  repeat (split; [reflexivity|]).
  split; [apply length_insert|].
  split; [intros j Hj; apply list_lookup_insert_ne; congruence|].
  split; [|split]; intros ->.
  - apply clearAttempts_failed.
  - apply clearAttempts_all.
  - apply clearAttempts_rate_limit.
Qed.

(** C3.  The rate-limit clear is idempotent: on a list, and as a request
    repeated at the same reading of the clock. *)
Theorem rate_limit_clear_idempotent env (w : World Snapshot) (e : string)
    (l : list ClaimAttempt) :
  clearAttempts "rate-limit" (now env) (clearAttempts "rate-limit" (now env) l)
  = clearAttempts "rate-limit" (now env) l /\
  let once := (clear env (clearRequest e "rate-limit") w).2 in
  users (clear env (clearRequest e "rate-limit") once).2 = users once.
Proof.
  split; [apply clearAttempts_idempotent|]. cbv zeta.
  destruct (POST_rejected_or_200 env (clearRequest e "rate-limit") w) as [Hw|Hok].
  - rewrite !Hw. reflexivity.
  - apply POST_200_inv in Hok as (su & e' & t & i & u & Hsu & Hadm & Hreq & He & Ht & Hfind).
    injection Hreq as <- <-.
    rewrite (POST_success env w su e _ i u Hsu Hadm He Ht Hfind).
    cbn [snd].
    set (u' := set_claim_attempts u _).
    set (w' := {| users := <[i := u']> (users w); auditLog := _ |}).
    assert (Hfind' : User_findOne (users w') e = Some (i, u')).
    { cbn [users w']. apply (User_findOne_insert _ _ _ u); [exact Hfind|].
      apply User_findOne_lookup in Hfind as [_ Hu]. exact Hu. }
    rewrite (POST_success env w' su e _ i u' Hsu Hadm He Ht Hfind').
    subst w' u'. cbn [snd users]. rewrite list_insert_insert_eq.
    rewrite set_claim_attempts_twice. cbn [set_claim_attempts claim_attempts default].
    unfold id. now rewrite clearAttempts_idempotent.
Qed.

(** C5.  For every admin-authenticated clear request: when the clear
    policy is not one of [failed], [all], [rate-limit] (or the email is
    missing or empty, the other malformed body) the answer is 400,
    InvalidArgument; when the request gives an email and one of the three
    policies and no user has the email, the answer is 404, NotFound; in
    each of these cases the request is rejected before any mutation: the
    stored users and the audit log are what they were. *)
Theorem POST_rejections env (b : ClearBody) (w : World Snapshot) :
  adminAuthenticated env ->
  (missingEmail (userEmail b) \/ ~ recognizedPolicy (clearType b) ->
   status (clear env (Some b) w).1 = 400 /\ (clear env (Some b) w).2 = w) /\
  (forall e,
     userEmail b = Some e -> e <> "" ->
     recognizedPolicy (clearType b) ->
     noUserMatches (users w) e ->
     status (clear env (Some b) w).1 = 404 /\ (clear env (Some b) w).2 = w).
Proof.
  intros [[su Hsu] Hadm]. unfold POST. rewrite Hsu, Hadm. cbn [negb]. split.
  - intros Hbad.
    destruct (Js.truthy (userEmail b)) eqn:Htr; cbn [negb]; [|now split].
    destruct (Js.includes validClearTypes (clearType b)) eqn:Hin;
      cbn [negb]; [|now split].
    exfalso. destruct Hbad as [Hmiss|Hpol].
    + apply truthy_false in Hmiss. congruence.
    + apply Hpol, recognizedPolicy_includes, Hin.
  - intros e Hue He Hpol Hnone.
    assert (Htr : Js.truthy (userEmail b) = true)
      by (apply truthy_true; eauto).
    apply recognizedPolicy_includes in Hpol.
    rewrite Htr, Hpol. cbn [negb]. cbv zeta. rewrite Hue. cbn [default].
    unfold id. apply User_findOne_none in Hnone. rewrite Hnone. now split.
Qed.

(** C7, as amended.  Every clear answered with 200 returns the message
    "Cleared <policy> claim attempts for <email>", where the policy reads
    [failed], [all] or [rate limit (recent failed attempts)]; and when the
    session of the admin carries a non-empty email, it appends to the
    audit log one record whose [previousData] and [newData] are the
    sanitized counts of attempts and of failed attempts of the user's list
    before and after the clear.  When the session carries no email no
    record is written. *)
Theorem POST_success_reports env req (w : World Snapshot) :
  status (clear env req w).1 = 200 ->
  exists e t i u after,
    req = clearRequest e t /\
    users w !! i = Some u /\ email u = e /\
    users (clear env req w).2 !! i = Some (set_claim_attempts u after) /\
    let before := default [] (claim_attempts u) in
    (exists policy,
       body (clear env req w).1
       = MessageBody ("Cleared " ++ policy ++ " claim attempts for " ++ e)%string /\
       (t = "failed" /\ policy = "failed" \/
        t = "all" /\ policy = "all" \/
        t = "rate-limit" /\ policy = "rate limit (recent failed attempts)")) /\
    (forall su a,
       getSession env ≫= Auth0.user = Some su ->
       Auth0.email su = Some a -> a <> "" ->
       exists entry,
         auditLog (clear env req w).2 = auditLog w ++ [entry] /\
         adminEmail entry = a /\
         targetUserEmail entry = e /\
         Details.clearType (details entry) = t /\
         previousData entry
         = sanitizeDataForLogging
             {| claimAttemptsCount := Z.of_nat (length before);
                failedAttemptsCount := count (fun x => success x = false) before |} /\
         newData entry
         = sanitizeDataForLogging
             {| claimAttemptsCount := Z.of_nat (length after);
                failedAttemptsCount := count (fun x => success x = false) after |}) /\
    (forall su,
       getSession env ≫= Auth0.user = Some su ->
       missingEmail (Auth0.email su) ->
       auditLog (clear env req w).2 = auditLog w).
Proof.
  intros Hok.
  apply POST_200_inv in Hok
    as (su & e & t & i & u & Hsu & Hadm & -> & He & Ht & Hfind).
  exists e, t, i, u, (clearAttempts t (now env) (default [] (claim_attempts u))).
  rewrite (POST_success env w su e t i u Hsu Hadm He Ht Hfind).
  cbn [fst snd body users auditLog].
  destruct (User_findOne_lookup _ _ _ _ Hfind) as [Hi Hu].
  split; [reflexivity|]. split; [exact Hi|]. split; [exact Hu|].
  split; [apply list_lookup_insert_eq; eapply lookup_lt_Some, Hi|].
  cbv zeta. split; [|split].
  - exists (interpolate (property messageMap t)). split; [reflexivity|].
    destruct Ht as [-> | [-> | ->]]; [left | right; left | right; right];
      split; reflexivity.
  - intros su' a Hsu' Ha Hne. rewrite Hsu in Hsu'. injection Hsu' as <-.
    assert (Htr : Js.truthy (Auth0.email su) = true)
      by (apply truthy_true; eauto).
    rewrite Htr. eexists. split; [reflexivity|].
    cbn [adminEmail targetUserEmail details Details.clearType previousData newData].
    rewrite Ha, !failedCount_eq. repeat split; reflexivity.
  - intros su' Hsu' Hmiss. rewrite Hsu in Hsu'. injection Hsu' as <-.
    apply truthy_false in Hmiss. now rewrite Hmiss.
Qed.

End ClearHandler.

(** ** The query handler *)

(** The two nested loops push, user after user, the rows of each user. *)
Lemma pushAttempts_app (failedOnly : bool) (u : User)
    (acc : list ClaimAttemptWithUser) :
  pushAttempts failedOnly u acc = acc ++ rowsOf failedOnly u.
Proof.
  unfold pushAttempts, rowsOf.
  destruct (claim_attempts u) as [attempts|]; cbn [default];
    [|now rewrite app_nil_r].
  unfold id.
  assert (Hloop : forall l acc0,
    fold_left
      (fun acc attempt =>
         if negb failedOnly || negb (success attempt)
         then acc ++ [ {| WithUser.userEmail := email u;
                          WithUser.userName := name u;
                          WithUser.identifier := identifier attempt;
                          WithUser.success := success attempt;
                          WithUser.timestamp := timestamp attempt;
                          WithUser.item_id := item_id attempt |} ]
         else acc) l acc0
    = acc0 ++ map (annotate u)
                  (List.filter (fun a => negb failedOnly || negb (success a)) l)).
  { induction l as [|a l IH]; intros acc0; cbn [fold_left List.filter map].
    - now rewrite app_nil_r.
    - rewrite IH. destruct (negb failedOnly || negb (success a)).
      + cbn [map]. now rewrite <- app_assoc.
      + reflexivity. }
  destruct attempts as [|a attempts].
  - cbn. now rewrite app_nil_r.
  - replace (0 <? Z.of_nat (length (a :: attempts))) with true
      by (symmetry; apply Z.ltb_lt; cbn [length]; lia).
    apply Hloop.
Qed.

Lemma collectAttempts_flat_map (failedOnly : bool) (us : list User) :
  collectAttempts failedOnly us = flat_map (rowsOf failedOnly) us.
Proof.
  unfold collectAttempts.
  assert (H : forall acc,
    fold_left (fun acc user => pushAttempts failedOnly user acc) us acc
    = acc ++ flat_map (rowsOf failedOnly) us).
  { induction us as [|u us IH]; intros acc; cbn [fold_left flat_map].
    - now rewrite app_nil_r.
    - rewrite IH, pushAttempts_app. now rewrite <- app_assoc. }
  apply H.
Qed.

(** The sort rearranges the array and leaves it most recent first. *)
Lemma insert_Permutation {A} (cmp : A -> A -> Z) (x : A) (l : list A) :
  Js.insert cmp x l ≡ₚ x :: l.
Proof.
  induction l as [|y l IH]; cbn [Js.insert]; [reflexivity|].
  destruct (cmp x y <=? 0); [reflexivity|].
  rewrite IH. apply perm_swap.
Qed.

Lemma sort_Permutation {A} (cmp : A -> A -> Z) (l : list A) :
  Js.sort cmp l ≡ₚ l.
Proof.
  unfold Js.sort. induction l as [|x l IH]; cbn [foldr]; [reflexivity|].
  rewrite insert_Permutation. now apply perm_skip.
Qed.

Lemma insert_sortedDesc (x : ClaimAttemptWithUser) (l : list ClaimAttemptWithUser) :
  sortedDesc l -> sortedDesc (Js.insert byTimestampDesc x l).
Proof.
  unfold sortedDesc. induction 1 as [|y l Hl IH Hy]; cbn [Js.insert].
  - repeat constructor.
  - unfold byTimestampDesc at 1.
    destruct (Z.leb_spec (WithUser.timestamp y - WithUser.timestamp x) 0) as [Hle|Hgt].
    + constructor; [now constructor|]. constructor; [lia|].
      eapply List.Forall_impl; [|exact Hy]. intros z Hz. cbn beta in *. lia.
    + constructor; [exact IH|].
      rewrite insert_Permutation. constructor; [lia|exact Hy].
Qed.

Lemma sort_sortedDesc (l : list ClaimAttemptWithUser) :
  sortedDesc (Js.sort byTimestampDesc l).
Proof.
  unfold Js.sort. induction l as [|x l IH]; cbn [foldr].
  - constructor.
  - now apply insert_sortedDesc.
Qed.

Lemma slice0_take {A} (l : list A) (n : Z) :
  0 <= n -> Js.slice0 l (Some n) = take (Z.to_nat n) l.
Proof.
  intros Hn. unfold Js.slice0.
  destruct (Z.ltb_spec n 0); [lia|reflexivity].
Qed.

Lemma filter_bool_split {A} (f : A -> bool) (l : list A) :
  (length (List.filter (fun x => negb (f x)) l) + length (List.filter f l))%nat
  = length l.
Proof.
  induction l as [|x l IH]; [reflexivity|].
  cbn [List.filter]. destruct (f x); cbn [negb length]; lia.
Qed.

Lemma computeStats_spec (rows : list ClaimAttemptWithUser) :
  let stats := computeStats rows in
  totalAttempts stats = Z.of_nat (length rows) /\
  failedAttempts stats + successfulAttempts stats = totalAttempts stats /\
  failedAttempts stats = count (fun r => WithUser.success r = false) rows /\
  successfulAttempts stats = count (fun r => WithUser.success r = true) rows.
Proof.
  cbv zeta. unfold computeStats.
  cbn [totalAttempts failedAttempts successfulAttempts].
  split; [reflexivity|]. split; [|split].
  - pose proof (filter_bool_split (fun attempt => WithUser.success attempt) rows) as H.
    cbn beta in H. lia.
  - unfold count. f_equal. f_equal. apply filter_bool_Prop.
    intros r. apply negb_true_iff.
  - unfold count. f_equal. f_equal. apply filter_bool_Prop.
    intros r. reflexivity.
Qed.

Section QueryClaims.

Context {Snapshot : Type}.
Variable sanitizeDataForLogging : Counts -> Snapshot.
Variable User_find : list User -> option string -> option Z -> option (list User).

Local Abbreviation query := (GET User_find).
Local Abbreviation clear := (POST sanitizeDataForLogging).

(** The answer of an admin's query, given the users the database
    returned. *)
Lemma GET_success env params docs us :
  adminAuthenticated env ->
  let email := param_email params in
  let limit := Js.parseInt (Js.or_else (param_limit params) "100") in
  User_find docs (if Js.truthy email then email else None) limit = Some us ->
  let rows :=
    Js.slice0
      (Js.sort byTimestampDesc
         (flat_map (rowsOf (Js.strict_eq (param_failed params) "true")) us))
      limit in
  query env params docs
  = {| body := AttemptsBody rows (computeStats rows); status := 200 |}.
Proof.
  intros [[su Hsu] Hadm]. cbv zeta. intros Hfind.
  unfold GET. rewrite Hsu, Hadm. cbn [negb]. cbv zeta. rewrite Hfind.
  now rewrite collectAttempts_flat_map.
Qed.

(** Every body [{ success, claimAttempts, stats }] is built by
    [computeStats] from the rows it carries, which are the first [limit]
    rows of a sorted array. *)
Lemma GET_body_inv env params docs rows stats :
  body (query env params docs) = AttemptsBody rows stats ->
  stats = computeStats rows /\
  exists sorted,
    sortedDesc sorted /\
    rows = Js.slice0 sorted (Js.parseInt (Js.or_else (param_limit params) "100")).
Proof.
  unfold GET.
  destruct (getSession env ≫= Auth0.user); [|discriminate].
  destruct (isAdmin env); [|discriminate]. cbn [negb]. cbv zeta.
  destruct (User_find _ _ _) as [us|]; [|discriminate].
  cbn [json body]. intros [= <- <-]. split; [reflexivity|].
  eexists. split; [apply sort_sortedDesc|reflexivity].
Qed.

(** C8.  Without a session user both handlers answer 401, and with a
    session user who is not an admin both answer 403, each with an
    [{ error }] body; the clear then leaves the stored users and the audit
    log as they were. *)
Theorem admin_only env params docs req (w : World Snapshot) :
  (getSession env ≫= Auth0.user = None ->
   query env params docs = {| body := ErrorBody "Unauthorized"; status := 401 |} /\
   clear env req w = ({| body := ErrorBody "Unauthorized"; status := 401 |}, w)) /\
  (is_Some (getSession env ≫= Auth0.user) -> isAdmin env = false ->
   query env params docs
   = {| body := ErrorBody "Forbidden: Admin access required"; status := 403 |} /\
   clear env req w
   = ({| body := ErrorBody "Forbidden: Admin access required"; status := 403 |}, w)).
Proof.
  split.
  - intros Hnone. split; [|now apply POST_no_session].
    unfold GET. now rewrite Hnone.
  - intros Hsome Hadm. split; [|now apply POST_not_admin].
    destruct Hsome as [su Hsu]. unfold GET. now rewrite Hsu, Hadm.
Qed.

(** C9.  In every answer that carries rows, the stats are those of the
    rows returned: [totalAttempts] is their number, [failedAttempts] and
    [successfulAttempts] count the failed and the successful ones among
    them and add up to [totalAttempts]; with a limit that is not negative,
    this is at most the limit. *)
Theorem GET_stats_describe_page env params docs rows stats :
  body (query env params docs) = AttemptsBody rows stats ->
  totalAttempts stats = Z.of_nat (length rows) /\
  failedAttempts stats + successfulAttempts stats = totalAttempts stats /\
  failedAttempts stats = count (fun r => WithUser.success r = false) rows /\
  successfulAttempts stats = count (fun r => WithUser.success r = true) rows /\
  (forall n,
     Js.parseInt (Js.or_else (param_limit params) "100") = Some n -> 0 <= n ->
     totalAttempts stats <= n).
Proof.
  intros Hbody. apply GET_body_inv in Hbody as (-> & sorted & _ & Hrows).
  destruct (computeStats_spec rows) as (H1 & H2 & H3 & H4). cbv zeta in *.
  repeat (split; [assumption|]).
  intros n Hn Hpos. rewrite H1, Hrows, Hn, slice0_take by exact Hpos.
  rewrite length_take. lia.
Qed.

End QueryClaims.

(** When the database hands back every user that matches the filter, the
    answer meets the contract of the query. *)
Lemma GET_answersQuery
    (User_find : list User -> option string -> option Z -> option (list User))
    env params docs us n :
  adminAuthenticated env ->
  let q := if Js.truthy (param_email params) then param_email params else None in
  Js.parseInt (Js.or_else (param_limit params) "100") = Some n ->
  0 <= n ->
  User_find docs q (Some n) = Some us ->
  us ≡ₚ List.filter (matchesQuery q) docs ->
  exists rows stats,
    GET User_find env params docs
    = {| body := AttemptsBody rows stats; status := 200 |} /\
    answersQuery docs q (Js.strict_eq (param_failed params) "true") n rows.
Proof.
  intros Hadm q Hn Hpos Hfind Hall.
  pose proof (GET_success User_find env params docs us Hadm) as Hget.
  cbv zeta in Hget. rewrite Hn in Hget. specialize (Hget Hfind).
  do 2 eexists. split; [exact Hget|].
  exists (Js.sort byTimestampDesc
            (flat_map (rowsOf (Js.strict_eq (param_failed params) "true")) us)).
  split; [|split].
  - rewrite sort_Permutation. now apply Permutation_flat_map.
  - apply sort_sortedDesc.
  - now apply slice0_take.
Qed.

(** C6 on a failing input.  Two users, [carol] whose latest attempt is a
    success and [dave] whose only attempt is an older failure; the query
    asks for the failed attempts, at most one.  The database query, cut
    at one user and ordered by the latest attempt of any kind, returns
    [carol] alone, so the answer holds no row, while the failed attempts
    across all users, most recent first and cut at one, are the failure of
    [dave]. *)
Theorem GET_failed_only_cut_by_user_limit :
  GET mongoFind adminEnv failedOnlyTop1 [carol; dave]
  = {| body := AttemptsBody [] {| totalAttempts := 0; failedAttempts := 0;
                                  successfulAttempts := 0; uniqueUsers := 0 |};
       status := 200 |} /\
  answersQuery [carol; dave] None true 1
    [annotate dave (attempt "D1" false (minutes (-5)))] /\
  ~ answersQuery [carol; dave] None true 1 [].
Proof.
  split; [reflexivity|]. split.
  - exists [annotate dave (attempt "D1" false (minutes (-5)))].
    split; [reflexivity|]. split; [repeat constructor|reflexivity].
  - intros (full & Hperm & _ & Htake).
    cbn in Hperm. apply Permutation_singleton_r in Hperm. subst full.
    discriminate Htake.
Qed.

(** The same with the default limit of 100: a hundred users with a recent
    success hide the failure of a hundred-and-first. *)
Lemma GET_failed_only_default_limit :
  GET mongoFind adminEnv failedOnly (dave :: crowd)
  = {| body := AttemptsBody [] {| totalAttempts := 0; failedAttempts := 0;
                                  successfulAttempts := 0; uniqueUsers := 0 |};
       status := 200 |} /\
  flat_map (rowsOf true) (dave :: crowd)
  = [annotate dave (attempt "D1" false (minutes (-5)))].
Proof. split; vm_compute; reflexivity. Qed.

(** ** The claims on the sample data *)

(** C2 on the example of the specification: the rate-limit clear of
    [alice] at [now = 0] stores her failure of 20 minutes ago and her
    success, and leaves [bob] alone. *)
Lemma POST_clear_result_witness :
  adminAuthenticated adminEnv /\
  User_findOne (users sampleWorld) "alice@example.com" = Some (0%nat, alice) /\
  exists u',
    users (POST id adminEnv (clearRequest "alice@example.com" "rate-limit")
             sampleWorld).2 !! 0%nat = Some u' /\
    claim_attempts u'
    = Some [attempt "A1" false (minutes (-20)); attempt "A3" true (minutes (-1))] /\
    retains (successfulOrOld 0) sampleAttempts
      [attempt "A1" false (minutes (-20)); attempt "A3" true (minutes (-1))] /\
    users (POST id adminEnv (clearRequest "alice@example.com" "rate-limit")
             sampleWorld).2 !! 1%nat = Some bob.
Proof.
  assert (Hadm : adminAuthenticated adminEnv)
    by (split; [eexists; reflexivity|reflexivity]).
  assert (Hfind : User_findOne (users sampleWorld) "alice@example.com"
                  = Some (0%nat, alice)) by (vm_compute; reflexivity).
  split; [exact Hadm|]. split; [exact Hfind|].
  destruct (POST_clear_result id adminEnv sampleWorld "alice@example.com"
              "rate-limit" 0%nat alice Hadm ltac:(discriminate)
              ltac:(right; right; reflexivity) Hfind)
    as (u' & after & Hstored & Hfield & _ & _ & _ & _ & Hothers & _ & _ & Hkept).
  exists u'. split; [exact Hstored|].
  assert (Hafter : after
                   = [attempt "A1" false (minutes (-20));
                      attempt "A3" true (minutes (-1))]).
  { apply (retains_unique (successfulOrOld 0) sampleAttempts);
      [apply Hkept; reflexivity|].
    exact (clearAttempts_rate_limit 0 sampleAttempts). }
  rewrite <- Hafter. split; [exact Hfield|].
  split; [apply Hkept; reflexivity|].
  rewrite (Hothers 1%nat ltac:(discriminate)). reflexivity.
Defined.

(** The checks of the body come before the lookup of the user: a request
    with an empty email, or with an unknown policy, is answered with 400
    whether or not a user has the email. *)
Lemma POST_no_match_answers_400 :
  adminAuthenticated adminEnv /\
  noUserMatches (users sampleWorld) "" /\
  status (POST id adminEnv (clearRequest "" "all") sampleWorld).1 = 400 /\
  noUserMatches (users sampleWorld) "nobody@example.com" /\
  status (POST id adminEnv (clearRequest "nobody@example.com" "bogus")
            sampleWorld).1 = 400.
Proof.
  split; [split; [eexists; reflexivity|reflexivity]|].
  split; [repeat constructor; discriminate|].
  split; [reflexivity|].
  split; [repeat constructor; discriminate|reflexivity].
Qed.

Lemma POST_rejections_witness :
  (status (POST id adminEnv (clearRequest "alice@example.com" "bogus")
             sampleWorld).1 = 400 /\
   (POST id adminEnv (clearRequest "alice@example.com" "bogus") sampleWorld).2
   = sampleWorld) /\
  (status (POST id adminEnv (clearRequest "nobody@example.com" "all")
             sampleWorld).1 = 404 /\
   (POST id adminEnv (clearRequest "nobody@example.com" "all") sampleWorld).2
   = sampleWorld).
Proof.
  assert (Hadm : adminAuthenticated adminEnv)
    by (split; [eexists; reflexivity|reflexivity]).
  split.
  - apply (proj1 (POST_rejections id adminEnv
                    {| userEmail := Some "alice@example.com";
                       clearType := Some "bogus" |} sampleWorld Hadm)).
    right. intros [H|[H|H]]; discriminate H.
  - apply (proj2 (POST_rejections id adminEnv
                    {| userEmail := Some "nobody@example.com";
                       clearType := Some "all" |} sampleWorld Hadm)
             "nobody@example.com").
    + reflexivity.
    + discriminate.
    + right; left; reflexivity.
    + repeat constructor; discriminate.
Defined.

(** C7 as stated fails: an admin whose session carries no email clears
    the failed attempts of [alice], is answered with 200, and no audit
    record is written. *)
Lemma POST_success_without_audit_record :
  adminAuthenticated namelessAdminEnv /\
  status (POST id namelessAdminEnv (clearRequest "alice@example.com" "failed")
            sampleWorld).1 = 200 /\
  users (POST id namelessAdminEnv (clearRequest "alice@example.com" "failed")
           sampleWorld).2
  = [set_claim_attempts alice [attempt "A3" true (minutes (-1))]; bob] /\
  auditLog (POST id namelessAdminEnv (clearRequest "alice@example.com" "failed")
              sampleWorld).2 = [].
Proof.
  split; [split; [eexists; reflexivity|reflexivity]|].
  repeat split; vm_compute; reflexivity.
Qed.

Lemma POST_success_reports_witness :
  exists e t i u after,
    clearRequest "alice@example.com" "rate-limit" = clearRequest e t /\
    users sampleWorld !! i = Some u /\ email u = e /\
    users (POST id adminEnv (clearRequest "alice@example.com" "rate-limit")
             sampleWorld).2 !! i = Some (set_claim_attempts u after) /\
    exists entry,
      auditLog (POST id adminEnv (clearRequest "alice@example.com" "rate-limit")
                  sampleWorld).2 = auditLog sampleWorld ++ [entry] /\
      previousData entry
      = {| claimAttemptsCount := Z.of_nat (length (default [] (claim_attempts u)));
           failedAttemptsCount :=
             count (fun x => success x = false) (default [] (claim_attempts u)) |} /\
      newData entry
      = {| claimAttemptsCount := Z.of_nat (length after);
           failedAttemptsCount := count (fun x => success x = false) after |}.
Proof.
  destruct (POST_success_reports id adminEnv
              (clearRequest "alice@example.com" "rate-limit") sampleWorld eq_refl)
    as (e & t & i & u & after & Hreq & Hi & Hu & Hafter & _ & Hlog & _).
  exists e, t, i, u, after. repeat (split; [assumption|]).
  destruct (Hlog {| Auth0.email := Some "root@example.com" |} "root@example.com"
              eq_refl eq_refl ltac:(discriminate))
    as (entry & Hentry & _ & _ & _ & Hprev & Hnew).
  exists entry. repeat split; assumption.
Defined.

(** C8 on a request without a session and on a request of a signed-in
    visitor. *)
Lemma admin_only_witness :
  (GET mongoFind anonymousEnv noParams (users sampleWorld)
   = {| body := ErrorBody "Unauthorized"; status := 401 |} /\
   POST id anonymousEnv (clearRequest "alice@example.com" "all") sampleWorld
   = ({| body := ErrorBody "Unauthorized"; status := 401 |}, sampleWorld)) /\
  (GET mongoFind visitorEnv noParams (users sampleWorld)
   = {| body := ErrorBody "Forbidden: Admin access required"; status := 403 |} /\
   POST id visitorEnv (clearRequest "alice@example.com" "all") sampleWorld
   = ({| body := ErrorBody "Forbidden: Admin access required"; status := 403 |},
      sampleWorld)).
Proof.
  split.
  - apply (proj1 (admin_only id mongoFind anonymousEnv noParams
                    (users sampleWorld)
                    (clearRequest "alice@example.com" "all") sampleWorld)).
    reflexivity.
  - apply (proj2 (admin_only id mongoFind visitorEnv noParams
                    (users sampleWorld)
                    (clearRequest "alice@example.com" "all") sampleWorld)).
    + eexists; reflexivity.
    + reflexivity.
Defined.

(** C9 on the query of an admin, without parameters, over the sample
    users. *)
Lemma GET_stats_describe_page_witness :
  exists rows stats,
    body (GET mongoFind adminEnv noParams (users sampleWorld))
    = AttemptsBody rows stats /\
    length rows = 4%nat /\
    totalAttempts stats = Z.of_nat (length rows) /\
    failedAttempts stats + successfulAttempts stats = totalAttempts stats.
Proof.
  eexists. eexists. split; [vm_compute; reflexivity|].
  split; [reflexivity|].
  match goal with
  | |- totalAttempts ?s = Z.of_nat (length ?r) /\ _ =>
      destruct (GET_stats_describe_page mongoFind adminEnv noParams
                  (users sampleWorld) r s eq_refl) as (H1 & H2 & _)
  end.
  split; assumption.
Defined.

(** * Further properties of the route *)

(** ** What a clear keeps *)

Lemma clearAttempts_sublist (t : string) (now : Z) (l : list ClaimAttempt) :
  clearAttempts t now l `sublist_of` l.
Proof.
  assert (Hf : forall f : ClaimAttempt -> bool, List.filter f l `sublist_of` l).
  { intros f. induction l as [|x l IH]; cbn [List.filter]; [constructor|].
    destruct (f x); now constructor. }
  unfold clearAttempts.
  destruct (String.eqb t "failed"); [apply Hf|].
  destruct (String.eqb t "rate-limit"); [apply Hf|].
  apply sublist_nil_l.
Qed.

Lemma filter_bool_absorb {A} (f g : A -> bool) (l : list A) :
  (forall x, f x = true -> g x = true) ->
  List.filter f (List.filter g l) = List.filter f l.
Proof.
  intros Hfg. induction l as [|x l IH]; [reflexivity|].
  cbn [List.filter]. destruct (g x) eqn:G.
  - cbn [List.filter]. now rewrite IH.
  - rewrite IH. destruct (f x) eqn:F; [|reflexivity].
    apply Hfg in F. congruence.
Qed.

Lemma clearAttempts_keeps_successes (t : string) (now : Z) (l : list ClaimAttempt) :
  t = "failed" \/ t = "rate-limit" ->
  List.filter (fun a => success a) (clearAttempts t now l)
  = List.filter (fun a => success a) l.
Proof.
  intros [-> | ->]; unfold clearAttempts;
    cbn [String.eqb Ascii.eqb Bool.eqb andb];
    apply filter_bool_absorb; intros a Ha; [exact Ha|].
  now rewrite Ha.
Qed.

(** X6.  The clear policies, one after the other: the [failed] clear
    undoes nothing and leaves nothing to a [rate-limit] clear, whatever
    the clocks; what the [failed] clear keeps is part of what the
    [rate-limit] clear keeps; and the [all] clear absorbs the two. *)
Theorem clear_policies_compose (now now' : Z) (l : list ClaimAttempt) :
  clearAttempts "failed" now (clearAttempts "rate-limit" now' l)
  = clearAttempts "failed" now l /\
  clearAttempts "rate-limit" now' (clearAttempts "failed" now l)
  = clearAttempts "failed" now l /\
  clearAttempts "failed" now l `sublist_of` clearAttempts "rate-limit" now' l /\
  (forall t, clearAttempts t now (clearAttempts "all" now' l) = []).
Proof.
  assert (H1 : clearAttempts "failed" now (clearAttempts "rate-limit" now' l)
               = clearAttempts "failed" now l).
  { unfold clearAttempts. cbn [String.eqb Ascii.eqb Bool.eqb andb].
    apply filter_bool_absorb. intros a Ha. now rewrite Ha. }
  split; [exact H1|]. split; [|split].
  - clear H1. unfold clearAttempts. cbn [String.eqb Ascii.eqb Bool.eqb andb].
    induction l as [|a l IH]; [reflexivity|]. cbn [List.filter].
    destruct (success a) eqn:E; [|exact IH].
    cbn [List.filter]. rewrite E. cbn [orb]. now rewrite IH.
  - rewrite <- H1. apply clearAttempts_sublist.
  - intros t. unfold clearAttempts at 2. cbn [String.eqb Ascii.eqb Bool.eqb andb].
    unfold clearAttempts.
    destruct (String.eqb t "failed"); [reflexivity|].
    destruct (String.eqb t "rate-limit"); reflexivity.
Qed.

(** A rate-limit clear at the server's clock, seen by a client whose clock
    is not behind. *)
Lemma rate_limit_clear_then_display (serverNow clientNow : Z)
    (l : list ClaimAttempt) :
  serverNow <= clientNow ->
  calculateRateLimit (clearAttempts "rate-limit" serverNow l) clientNow
  = {| recentFailedAttempts := 0; isRateLimited := false; remainingAttempts := 10 |}.
Proof.
  intros Hle. unfold calculateRateLimit.
  rewrite filter_bool_none; [reflexivity|].
  intros a Ha. unfold clearAttempts in Ha.
  cbn [String.eqb Ascii.eqb Bool.eqb andb] in Ha.
  apply List.filter_In in Ha as [_ Ha].
  apply orb_true_iff in Ha as [Hs|Ho]; [now rewrite Hs|].
  apply Z.ltb_lt in Ho. apply andb_false_iff. right. apply Z.leb_gt. lia.
Qed.

(** X7.  A rate-limit clear at the server's clock resets the display of a
    client whose clock is not behind the server's; the [failed] and the
    [all] clear reset it whatever the clocks. *)
Theorem clear_resets_display (t : string) (serverNow clientNow : Z)
    (l : list ClaimAttempt) :
  t = "failed" \/ t = "all" \/ (t = "rate-limit" /\ serverNow <= clientNow) ->
  calculateRateLimit (clearAttempts t serverNow l) clientNow
  = {| recentFailedAttempts := 0; isRateLimited := false; remainingAttempts := 10 |}.
Proof.
  intros [-> | [-> | [-> Hle]]].
  - unfold calculateRateLimit. rewrite filter_bool_none; [reflexivity|].
    intros a Ha. unfold clearAttempts in Ha.
    cbn [String.eqb Ascii.eqb Bool.eqb andb] in Ha.
    apply List.filter_In in Ha as [_ Ha]. now rewrite Ha.
  - reflexivity.
  - now apply rate_limit_clear_then_display.
Qed.

Lemma clear_resets_display_witness :
  calculateRateLimit (clearAttempts "rate-limit" 0 sampleAttempts) (minutes 1)
  = {| recentFailedAttempts := 0; isRateLimited := false; remainingAttempts := 10 |}.
Proof.
  apply (clear_resets_display "rate-limit" 0 (minutes 1) sampleAttempts).
  right; right. split; [reflexivity|]. vm_compute. discriminate.
Defined.

(** The bound on the clocks is needed: a failure 17 minutes before the
    server's clock survives the clear and is recent for a client whose
    clock is 5 minutes behind. *)
Example clear_does_not_reset_a_late_client :
  recentFailedAttempts
    (calculateRateLimit
       (clearAttempts "rate-limit" 0 [attempt "L" false (minutes (-17))])
       (minutes (-5))) = 1.
Proof. reflexivity. Qed.

(** X8.  The later the clock of a rate-limit clear, the more it keeps:
    as the window moves on, failures leave it and are no longer dropped,
    so that what a clear at an earlier clock keeps is a sublist of what a
    clear at a later clock keeps. *)
Theorem rate_limit_clear_monotone (now now' : Z) (l : list ClaimAttempt) :
  now <= now' ->
  clearAttempts "rate-limit" now l `sublist_of` clearAttempts "rate-limit" now' l.
Proof.
  intros Hle. unfold clearAttempts. cbn [String.eqb Ascii.eqb Bool.eqb andb].
  induction l as [|a l IH]; [constructor|]. cbn [List.filter].
  destruct (success a || (timestamp a <? now - 15 * 60 * 1000)) eqn:E.
  - replace (success a || (timestamp a <? now' - 15 * 60 * 1000)) with true.
    + now constructor.
    + symmetry. apply orb_true_iff. apply orb_true_iff in E as [Hs|Ho];
        [now left|right]. apply Z.ltb_lt in Ho. apply Z.ltb_lt. lia.
  - destruct (success a || (timestamp a <? now' - 15 * 60 * 1000));
      [constructor|]; exact IH.
Qed.

(** X8 on the example of the specification: the clear at [now = 0] drops
    the failure of 5 minutes ago, the clear 11 minutes later keeps it. *)
Lemma rate_limit_clear_monotone_witness :
  clearAttempts "rate-limit" 0 sampleAttempts
  = [attempt "A1" false (minutes (-20)); attempt "A3" true (minutes (-1))] /\
  clearAttempts "rate-limit" (minutes 11) sampleAttempts = sampleAttempts /\
  clearAttempts "rate-limit" 0 sampleAttempts
  `sublist_of` clearAttempts "rate-limit" (minutes 11) sampleAttempts.
Proof.
  split; [reflexivity|]. split; [reflexivity|].
  apply (rate_limit_clear_monotone 0 (minutes 11) sampleAttempts).
  vm_compute. discriminate.
Defined.

(** ** What the clear handler keeps *)

Section ClearInvariants.

Context {Snapshot : Type}.
Variable sanitizeDataForLogging : Counts -> Snapshot.

Local Abbreviation clear := (POST sanitizeDataForLogging).

(** The users after a clear: those before, or those before with the list
    of one of them cleared. *)
Lemma POST_users env req (w : World Snapshot) :
  users (clear env req w).2 = users w \/
  exists t i u,
    users w !! i = Some u /\
    req ≫= clearType = Some t /\
    (t = "failed" \/ t = "all" \/ t = "rate-limit") /\
    users (clear env req w).2
    = <[i := set_claim_attempts u
              (clearAttempts t (now env) (default [] (claim_attempts u)))]>
        (users w).
Proof.
  destruct (POST_rejected_or_200 sanitizeDataForLogging env req w) as [Hw|Hok].
  - left. now rewrite Hw.
  - right.
    apply POST_200_inv in Hok
      as (su & e & t & i & u & Hsu & Hadm & -> & He & Ht & Hfind).
    exists t, i, u.
    rewrite (POST_success sanitizeDataForLogging env w su e t i u
               Hsu Hadm He Ht Hfind).
    destruct (User_findOne_lookup _ _ _ _ Hfind) as [Hi _].
    repeat split; try assumption; reflexivity.
Qed.

(** X1.  Whatever the request, a clear neither adds nor removes nor
    reorders users, leaves the [_id], [email] and [name] of each as they
    are, and never adds an attempt: the attempts of a user afterwards are
    a sublist of those before. *)
Theorem POST_only_removes_attempts env req (w : World Snapshot) :
  length (users (clear env req w).2) = length (users w) /\
  forall i u',
    users (clear env req w).2 !! i = Some u' ->
    exists u,
      users w !! i = Some u /\
      _id u' = _id u /\ email u' = email u /\ name u' = name u /\
      default [] (claim_attempts u') `sublist_of` default [] (claim_attempts u).
Proof.
  destruct (POST_users env req w) as [Hsame|(t & i & u & Hi & _ & _ & Hins)].
  - rewrite Hsame. split; [reflexivity|]. intros j u' Hj. exists u'.
    repeat split; try assumption; reflexivity.
  - rewrite Hins. split; [apply length_insert|]. intros j u' Hj.
    destruct (decide (i = j)) as [<-|Hne].
    + rewrite list_lookup_insert_eq in Hj by (eapply lookup_lt_Some, Hi).
      injection Hj as <-. exists u. split; [exact Hi|].
      repeat split. cbn [set_claim_attempts claim_attempts default]. unfold id.
      apply clearAttempts_sublist.
    + rewrite list_lookup_insert_ne in Hj by exact Hne.
      exists u'. repeat split; try assumption; reflexivity.
Qed.

(** X2.  Unless the policy is [all], a clear removes no successful
    attempt: for every user, the successful attempts afterwards are the
    successful attempts before, in the same order. *)
Theorem POST_keeps_successes env req (w : World Snapshot) :
  req ≫= clearType <> Some "all" ->
  forall i u',
    users (clear env req w).2 !! i = Some u' ->
    exists u,
      users w !! i = Some u /\
      filter (fun a => success a = true) (default [] (claim_attempts u'))
      = filter (fun a => success a = true) (default [] (claim_attempts u)).
Proof.
  intros Hnot j u' Hj.
  destruct (POST_users env req w) as [Hsame|(t & i & u & Hi & Ht & Hv & Hins)].
  - rewrite Hsame in Hj. now exists u'.
  - rewrite Hins in Hj. destruct (decide (i = j)) as [<-|Hne].
    + rewrite list_lookup_insert_eq in Hj by (eapply lookup_lt_Some, Hi).
      injection Hj as <-. exists u. split; [exact Hi|].
      cbn [set_claim_attempts claim_attempts default]. unfold id.
      rewrite <- !(filter_bool_Prop (fun a => success a))
        by (intros a; reflexivity).
      apply clearAttempts_keeps_successes.
      destruct Hv as [-> | [-> | ->]]; [now left| |now right].
      exfalso. apply Hnot, Ht.
    + rewrite list_lookup_insert_ne in Hj by exact Hne. now exists u'.
Qed.

(** Without a rejection the handler with its [catch] is the handler. *)
Lemma POST_try_no_rejection env req (w : World Snapshot) :
  POST_try sanitizeDataForLogging noRejection env req w = clear env req w.
Proof.
  unfold POST_try, POST. cbn [noRejection getSession_rejects isAdmin_rejects
    connectMongoDB_rejects findOne_rejects save_rejects logAdminAction_rejects].
  cbv zeta.
  destruct (getSession env ≫= Auth0.user) as [su|]; [|reflexivity].
  destruct (isAdmin env); cbn [negb]; [|reflexivity].
  destruct req as [b|]; [|reflexivity].
  destruct (Js.truthy (userEmail b)); cbn [negb]; [|reflexivity].
  destruct (Js.includes validClearTypes (clearType b)); cbn [negb]; [|reflexivity].
  destruct (User_findOne (users w) (default "" (userEmail b))) as [[i u]|];
    [|reflexivity].
  destruct (Js.truthy (Auth0.email su)); reflexivity.
Qed.


(** X4.  The audit log only grows, by one record at most, and by none
    when the answer is not 200. *)
Theorem POST_audit_log_grows env req (w : World Snapshot) :
  exists tail,
    auditLog (clear env req w).2 = auditLog w ++ tail /\
    (length tail <= 1)%nat /\
    (status (clear env req w).1 <> 200 -> tail = []).
Proof.
  destruct (POST_rejected_or_200 sanitizeDataForLogging env req w) as [Hw|Hok].
  - exists []. rewrite Hw, app_nil_r. repeat split; cbn; lia.
  - pose proof Hok as Hok'.
    apply POST_200_inv in Hok
      as (su & e & t & i & u & Hsu & Hadm & -> & He & Ht & Hfind).
    rewrite (POST_success sanitizeDataForLogging env w su e t i u
               Hsu Hadm He Ht Hfind) in Hok' |- *.
    cbn [fst snd auditLog status].
    destruct (Js.truthy (Auth0.email su)).
    + eexists. split; [reflexivity|]. split; [cbn; lia|]. intros H. now destruct H.
    + exists []. rewrite app_nil_r. split; [reflexivity|]. split; [cbn; lia|].
      reflexivity.
Qed.

(** X5.  The audit record of a clear by an admin whose session has an
    email: it names the admin, the target and the document, its action
    is the one of the policy, and [attemptsClearedCount] is the number of
    attempts removed, which for [failed] is the number of failed attempts
    the user had and for [all] the number of all attempts. *)
Theorem POST_audit_record env (w : World Snapshot) su a e t i u :
  getSession env ≫= Auth0.user = Some su ->
  Auth0.email su = Some a -> a <> "" ->
  isAdmin env = true ->
  e <> "" ->
  t = "failed" \/ t = "all" \/ t = "rate-limit" ->
  User_findOne (users w) e = Some (i, u) ->
  let before := default [] (claim_attempts u) in
  exists entry after,
    auditLog (clear env (clearRequest e t) w).2 = auditLog w ++ [entry] /\
    users (clear env (clearRequest e t) w).2 !! i
    = Some (set_claim_attempts u after) /\
    adminEmail entry = a /\ targetUserEmail entry = e /\
    resourceId entry = _id u /\ resourceType entry = "claimAttempts" /\
    (t = "failed" /\ action entry = Some "CLEAR_CLAIM_ATTEMPTS_FAILED" \/
     t = "all" /\ action entry = Some "CLEAR_CLAIM_ATTEMPTS_ALL" \/
     t = "rate-limit" /\ action entry = Some "RESET_RATE_LIMIT") /\
    Details.attemptsClearedCount (details entry)
    = Z.of_nat (length before) - Z.of_nat (length after) /\
    0 <= Details.attemptsClearedCount (details entry) /\
    (t = "failed" ->
     Details.attemptsClearedCount (details entry)
     = count (fun x => success x = false) before) /\
    (t = "all" ->
     Details.attemptsClearedCount (details entry) = Z.of_nat (length before)).
Proof.
  intros Hsu Ha Hne Hadm He Ht Hfind. cbv zeta.
  rewrite (POST_success sanitizeDataForLogging env w su e t i u
             Hsu Hadm He Ht Hfind).
  assert (Htr : Js.truthy (Auth0.email su) = true)
    by (apply truthy_true; eauto).
  cbn [snd users auditLog]. rewrite Htr.
  destruct (User_findOne_lookup _ _ _ _ Hfind) as [Hi _].
  set (before := default [] (claim_attempts u)).
  eexists. eexists. split; [reflexivity|].
  split; [apply list_lookup_insert_eq; eapply lookup_lt_Some, Hi|].
  cbn [adminEmail targetUserEmail resourceId resourceType action details
       Details.attemptsClearedCount].
  rewrite Ha. cbn [default]. unfold id.
  split; [reflexivity|]. split; [reflexivity|]. split; [reflexivity|].
  split; [reflexivity|]. split.
  { destruct Ht as [-> | [-> | ->]]; [left | right; left | right; right];
      split; reflexivity. }
  split; [reflexivity|]. split.
  { pose proof (sublist_length _ _ (clearAttempts_sublist t (now env) before)).
    lia. }
  split; intros ->.
  - unfold clearAttempts, count. cbn [String.eqb Ascii.eqb Bool.eqb andb].
    rewrite <- (filter_bool_Prop (fun x => negb (success x)))
      by (intros x; apply negb_true_iff).
    pose proof (filter_bool_split (fun attempt => success attempt) before) as H.
    cbn beta in H. lia.
  - rewrite clearAttempts_all. cbn [length]. lia.
Qed.

End ClearInvariants.

(** X4 on the request of a visitor, which is refused. *)
Lemma POST_audit_log_grows_witness :
  exists tail,
    auditLog (POST id visitorEnv (clearRequest "alice@example.com" "all")
                sampleWorld).2 = auditLog sampleWorld ++ tail /\
    tail = [].
Proof.
  destruct (POST_audit_log_grows id visitorEnv
              (clearRequest "alice@example.com" "all") sampleWorld)
    as (tail & Hlog & _ & Hnone).
  exists tail. split; [exact Hlog|]. apply Hnone. vm_compute. discriminate.
Defined.

Lemma POST_only_removes_attempts_witness :
  exists u,
    users sampleWorld !! 0%nat = Some u /\
    [attempt "A1" false (minutes (-20)); attempt "A3" true (minutes (-1))]
    `sublist_of` default [] (claim_attempts u).
Proof.
  destruct (proj2 (POST_only_removes_attempts id adminEnv
                     (clearRequest "alice@example.com" "rate-limit")
                     sampleWorld) 0%nat
              (set_claim_attempts alice
                 [attempt "A1" false (minutes (-20));
                  attempt "A3" true (minutes (-1))]))
    as (u & Hu & _ & _ & _ & Hsub).
  - vm_compute. reflexivity.
  - exists u. split; assumption.
Defined.

Lemma POST_keeps_successes_witness :
  exists u,
    users sampleWorld !! 0%nat = Some u /\
    [attempt "A3" true (minutes (-1))]
    = filter (fun a => success a = true) (default [] (claim_attempts u)).
Proof.
  destruct (POST_keeps_successes id adminEnv
              (clearRequest "alice@example.com" "failed") sampleWorld
              ltac:(discriminate) 0%nat
              (set_claim_attempts alice [attempt "A3" true (minutes (-1))]))
    as (u & Hu & Heq).
  - vm_compute. reflexivity.
  - exists u. split; [exact Hu|]. rewrite <- Heq. reflexivity.
Defined.

Lemma POST_audit_record_witness :
  exists entry,
    auditLog (POST id adminEnv (clearRequest "alice@example.com" "failed")
                sampleWorld).2 = [entry] /\
    action entry = Some "CLEAR_CLAIM_ATTEMPTS_FAILED" /\
    Details.attemptsClearedCount (details entry) = 2.
Proof.
  destruct (POST_audit_record id adminEnv sampleWorld
              {| Auth0.email := Some "root@example.com" |} "root@example.com"
              "alice@example.com" "failed" 0%nat alice
              eq_refl eq_refl ltac:(discriminate) eq_refl ltac:(discriminate)
              ltac:(left; reflexivity) ltac:(vm_compute; reflexivity))
    as (entry & after & Hlog & _ & _ & _ & _ & _ & Hact & _ & _ & Hfailed & _).
  exists entry. split; [exact Hlog|]. split.
  - destruct Hact as [[_ H]|[[H _]|[H _]]]; [exact H|discriminate H|discriminate H].
  - rewrite (Hfailed eq_refl). reflexivity.
Defined.

(** ** The rows of the query *)

Lemma sortedDesc_take (n : nat) (rows : list ClaimAttemptWithUser) :
  sortedDesc rows -> sortedDesc (take n rows).
Proof.
  unfold sortedDesc. intros H. revert n.
  induction H as [|x l Hl IH Hx]; intros [|n]; cbn [take]; try constructor.
  - apply IH.
  - apply List.Forall_forall. intros y Hy.
    rewrite List.Forall_forall in Hx. apply Hx.
    apply list_elem_of_In. apply list_elem_of_In in Hy.
    eapply (subseteq_take n l), Hy.
Qed.

Lemma slice0_is_take {A} (l : list A) (e : option Z) :
  exists n, Js.slice0 l e = take n l.
Proof.
  destruct e as [n|]; cbn [Js.slice0].
  - destruct (n <? 0); eexists; reflexivity.
  - exists 0%nat. reflexivity.
Qed.

Section QueryRows.

Variable User_find : list User -> option string -> option Z -> option (list User).

Local Abbreviation query := (GET User_find).

(** A body with rows comes from an answer of the database, of which the
    rows are those pushed by the loops, sorted and cut. *)
Lemma GET_rows_inv env params docs rows stats :
  body (query env params docs) = AttemptsBody rows stats ->
  exists us,
    User_find docs
      (if Js.truthy (param_email params) then param_email params else None)
      (Js.parseInt (Js.or_else (param_limit params) "100")) = Some us /\
    rows = Js.slice0
             (Js.sort byTimestampDesc
                (flat_map (rowsOf (Js.strict_eq (param_failed params) "true")) us))
             (Js.parseInt (Js.or_else (param_limit params) "100")) /\
    stats = computeStats rows.
Proof.
  unfold GET.
  destruct (getSession env ≫= Auth0.user); [|discriminate].
  destruct (isAdmin env); [|discriminate]. cbn [negb]. cbv zeta.
  destruct (User_find _ _ _) as [us|] eqn:Hfind; [|discriminate].
  cbn [json body]. rewrite collectAttempts_flat_map. intros [= <- <-].
  exists us. repeat split; reflexivity.
Qed.

(** X9.  The rows of every answer are in descending order of
    timestamp, whatever the limit. *)
Theorem GET_rows_sorted env params docs rows stats :
  body (query env params docs) = AttemptsBody rows stats ->
  sortedDesc rows.
Proof.
  intros Hbody. apply GET_rows_inv in Hbody as (us & _ & -> & _).
  destruct (slice0_is_take
              (Js.sort byTimestampDesc
                 (flat_map (rowsOf (Js.strict_eq (param_failed params) "true")) us))
              (Js.parseInt (Js.or_else (param_limit params) "100"))) as [n ->].
  apply sortedDesc_take, sort_sortedDesc.
Qed.

(** Where the rows of a page come from. *)
Lemma rows_origin (failedOnly : bool) (us : list User) (limit : option Z)
    (row : ClaimAttemptWithUser) :
  row ∈ Js.slice0 (Js.sort byTimestampDesc (flat_map (rowsOf failedOnly) us)) limit ->
  exists u a,
    u ∈ us /\ a ∈ default [] (claim_attempts u) /\
    row = annotate u a /\
    (failedOnly = true -> success a = false).
Proof.
  intros Hrow.
  destruct (slice0_is_take
              (Js.sort byTimestampDesc (flat_map (rowsOf failedOnly) us)) limit)
    as [n Hn].
  rewrite Hn in Hrow. apply subseteq_take in Hrow.
  rewrite sort_Permutation in Hrow.
  apply list_elem_of_In, in_flat_map in Hrow as (u & Hu & Hrow).
  unfold rowsOf in Hrow. apply in_map_iff in Hrow as (a & <- & Ha).
  apply List.filter_In in Ha as [Ha Hkeep].
  exists u, a. split; [now apply list_elem_of_In|].
  split; [now apply list_elem_of_In|]. split; [reflexivity|].
  intros ->. cbn in Hkeep. now apply negb_true_iff.
Qed.

(** X10.  Every row of an answer is an attempt of one of the users the
    database returned, with the email and the name of that user; and with
    [failed=true] every row is a failed attempt. *)
Theorem GET_rows_origin env params docs rows stats :
  body (query env params docs) = AttemptsBody rows stats ->
  exists us,
    User_find docs
      (if Js.truthy (param_email params) then param_email params else None)
      (Js.parseInt (Js.or_else (param_limit params) "100")) = Some us /\
    forall row, row ∈ rows ->
      exists u a,
        u ∈ us /\ a ∈ default [] (claim_attempts u) /\
        row = annotate u a /\
        (param_failed params = Some "true" -> success a = false).
Proof.
  intros Hbody. apply GET_rows_inv in Hbody as (us & Hfind & -> & _).
  exists us. split; [exact Hfind|]. intros row Hrow.
  destruct (rows_origin _ _ _ _ Hrow) as (u & a & Hu & Ha & Heq & Hfail).
  exists u, a. repeat (split; [assumption|]).
  intros Hf. apply Hfail. now rewrite Hf.
Qed.

(** X11.  With [failed=true] the stats count no success:
    [successfulAttempts] is 0 and [failedAttempts] is [totalAttempts]. *)
Theorem GET_failed_only_stats env params docs rows stats :
  param_failed params = Some "true" ->
  body (GET User_find env params docs) = AttemptsBody rows stats ->
  successfulAttempts stats = 0 /\ failedAttempts stats = totalAttempts stats.
Proof.
  intros Hf Hbody.
  apply GET_rows_inv in Hbody as (us & _ & Hrows & ->).
  destruct (computeStats_spec rows) as (H1 & H2 & _ & _). cbv zeta in H1, H2.
  assert (H0 : successfulAttempts (computeStats rows) = 0).
  { unfold computeStats. cbn [successfulAttempts].
    rewrite filter_bool_none; [reflexivity|]. intros row Hrow.
    apply list_elem_of_In in Hrow. rewrite Hrows in Hrow.
    destruct (rows_origin _ _ _ _ Hrow) as (u & a & _ & _ & -> & Hfail).
    cbn [annotate WithUser.success]. apply Hfail. now rewrite Hf. }
  split; [exact H0|]. lia.
Qed.

(** X12.  [uniqueUsers] is the number of distinct emails among the rows:
    it is the length of a duplicate-free list of exactly these emails; it
    is at most [totalAttempts], and it is 0 only when there is no row. *)
Theorem GET_uniqueUsers env params docs rows stats :
  body (GET User_find env params docs) = AttemptsBody rows stats ->
  (exists emails,
     NoDup emails /\
     (forall e, e ∈ emails <-> exists row, row ∈ rows /\ WithUser.userEmail row = e) /\
     uniqueUsers stats = Z.of_nat (length emails)) /\
  0 <= uniqueUsers stats <= totalAttempts stats /\
  (uniqueUsers stats = 0 <-> rows = []).
Proof.
  intros Hbody. apply GET_rows_inv in Hbody as (_ & _ & _ & ->).
  unfold computeStats. cbn [uniqueUsers totalAttempts].
  split; [|split].
  - exists (remove_dups (map WithUser.userEmail rows)).
    split; [apply NoDup_remove_dups|]. split; [|reflexivity].
    intros e. rewrite elem_of_remove_dups, list_elem_of_fmap.
    split; intros (row & H1 & H2); exists row; split; auto.
  - split; [lia|]. apply inj_le.
    rewrite <- (length_map WithUser.userEmail rows).
    apply submseteq_length, NoDup_submseteq; [apply NoDup_remove_dups|].
    intros e. apply elem_of_remove_dups.
  - split.
    + intros H0. destruct rows as [|row rows]; [reflexivity|]. exfalso.
      assert (Hin : WithUser.userEmail row
                    ∈ remove_dups (map WithUser.userEmail (row :: rows)))
        by (apply elem_of_remove_dups; left).
      destruct (remove_dups (map WithUser.userEmail (row :: rows)));
        [inversion Hin|discriminate H0].
    + intros ->. reflexivity.
Qed.

(** X13.  The limit at its edges.  A limit that is not a number, as in
    [limit=abc], or that is 0 gives an answer without rows and with all
    stats 0; a negative limit [-k] does not bound the rows but drops the
    [k] oldest of the rows found. *)
Theorem GET_limit_edges env params docs rows stats :
  body (query env params docs) = AttemptsBody rows stats ->
  let limit := Js.parseInt (Js.or_else (param_limit params) "100") in
  (limit = None \/ limit = Some 0 ->
   rows = [] /\
   stats = {| totalAttempts := 0; failedAttempts := 0;
              successfulAttempts := 0; uniqueUsers := 0 |}) /\
  (forall k, limit = Some (- k) -> 0 < k ->
   exists us dropped,
     User_find docs
       (if Js.truthy (param_email params) then param_email params else None)
       limit = Some us /\
     rows ++ dropped
     ≡ₚ flat_map (rowsOf (Js.strict_eq (param_failed params) "true")) us /\
     sortedDesc (rows ++ dropped) /\
     length dropped = Nat.min (Z.to_nat k) (length (rows ++ dropped))).
Proof.
  intros Hbody. cbv zeta.
  apply GET_rows_inv in Hbody as (us & Hfind & Hrows & Hstats).
  pose proof (sort_Permutation byTimestampDesc
    (flat_map (rowsOf (Js.strict_eq (param_failed params) "true")) us)) as Hperm.
  set (found := Js.sort byTimestampDesc
                  (flat_map (rowsOf (Js.strict_eq (param_failed params) "true")) us))
    in Hrows, Hperm.
  split.
  - intros Hl.
    assert (Hnil : rows = []).
    { rewrite Hrows. destruct Hl as [-> | ->]; reflexivity. }
    split; [exact Hnil|]. rewrite Hstats, Hnil. reflexivity.
  - intros k Hk Hpos. rewrite Hk in Hrows.
    unfold Js.slice0 in Hrows.
    destruct (Z.ltb_spec (- k) 0) as [_|]; [|lia].
    set (n := Z.to_nat (Z.max (Z.of_nat (length found) + - k) 0)) in Hrows.
    exists us, (drop n found).
    rewrite Hrows, take_drop.
    split; [exact Hfind|]. split; [exact Hperm|].
    split; [apply sort_sortedDesc|].
    rewrite length_drop. subst n. lia.
Qed.

End QueryRows.

Lemma GET_failed_only_stats_witness :
  exists rows stats,
    body (GET mongoFind adminEnv failedOnly (users sampleWorld))
    = AttemptsBody rows stats /\
    length rows = 2%nat /\
    successfulAttempts stats = 0 /\ failedAttempts stats = totalAttempts stats.
Proof.
  eexists. eexists. split; [vm_compute; reflexivity|].
  split; [reflexivity|].
  match goal with
  | |- successfulAttempts ?s = 0 /\ _ =>
      exact (GET_failed_only_stats mongoFind adminEnv failedOnly
               (users sampleWorld) _ s eq_refl eq_refl)
  end.
Defined.

Lemma GET_rows_sorted_witness :
  exists rows stats,
    body (GET mongoFind adminEnv noParams (users sampleWorld))
    = AttemptsBody rows stats /\
    length rows = 4%nat /\ sortedDesc rows.
Proof.
  eexists. eexists. split; [vm_compute; reflexivity|].
  split; [reflexivity|].
  match goal with
  | |- sortedDesc ?r =>
      exact (GET_rows_sorted mongoFind adminEnv noParams
               (users sampleWorld) r _ eq_refl)
  end.
Defined.

Lemma GET_rows_origin_witness :
  exists us,
    mongoFind (users sampleWorld) None (Some 100) = Some us /\
    forall row,
      row ∈ [annotate alice (attempt "A2" false (minutes (-5)));
             annotate alice (attempt "A1" false (minutes (-20)))] ->
      exists u a, u ∈ us /\ a ∈ default [] (claim_attempts u) /\ row = annotate u a.
Proof.
  destruct (GET_rows_origin mongoFind adminEnv failedOnly (users sampleWorld)
              _ _ eq_refl) as (us & Hfind & Horigin).
  exists us. split; [exact Hfind|]. intros row Hrow.
  destruct (Horigin row Hrow) as (u & a & Hu & Ha & Heq & _).
  exists u, a. repeat split; assumption.
Defined.

Lemma GET_uniqueUsers_witness :
  exists rows stats,
    body (GET mongoFind adminEnv noParams (users sampleWorld))
    = AttemptsBody rows stats /\
    uniqueUsers stats = 2 /\ 0 <= uniqueUsers stats <= totalAttempts stats.
Proof.
  eexists. eexists. split; [vm_compute; reflexivity|].
  split; [reflexivity|].
  match goal with
  | |- 0 <= uniqueUsers ?s <= _ =>
      exact (proj1 (proj2 (GET_uniqueUsers mongoFind adminEnv noParams
                             (users sampleWorld) _ s eq_refl)))
  end.
Defined.

(** X13 on the sample users: with [limit=0] the answer has no row; with
    [limit=-1] the database query returns one user, [alice], and the
    oldest of her three rows is dropped. *)
Lemma GET_limit_edges_witness :
  body (GET mongoFind adminEnv
          {| param_email := None; param_failed := None;
             param_limit := Some "0" |} (users sampleWorld))
  = AttemptsBody [] {| totalAttempts := 0; failedAttempts := 0;
                       successfulAttempts := 0; uniqueUsers := 0 |} /\
  exists rows stats dropped,
    body (GET mongoFind adminEnv
            {| param_email := None; param_failed := None;
               param_limit := Some "-1" |} (users sampleWorld))
    = AttemptsBody rows stats /\
    length rows = 2%nat /\
    rows ++ dropped ≡ₚ flat_map (rowsOf false) [alice] /\
    length dropped = 1%nat.
Proof.
  split.
  - assert (Hbody : exists rows stats,
              body (GET mongoFind adminEnv
                      {| param_email := None; param_failed := None;
                         param_limit := Some "0" |} (users sampleWorld))
              = AttemptsBody rows stats)
      by (eexists; eexists; vm_compute; reflexivity).
    destruct Hbody as (rows & stats & Hbody).
    destruct (proj1 (GET_limit_edges mongoFind adminEnv _ (users sampleWorld)
                       rows stats Hbody) (or_intror eq_refl)) as [-> ->].
    exact Hbody.
  - eexists. eexists.
    match goal with
    | |- exists dropped, body ?g = AttemptsBody ?r ?s /\ _ =>
        assert (Hbody : body g = AttemptsBody r s) by (vm_compute; reflexivity)
    end.
    destruct (proj2 (GET_limit_edges mongoFind adminEnv _ (users sampleWorld)
                       _ _ Hbody) 1 eq_refl ltac:(lia))
      as (us & dropped & Hfind & Hperm & _ & Hlen).
    injection Hfind as <-.
    exists dropped. split; [exact Hbody|]. split; [reflexivity|].
    split; [exact Hperm|]. rewrite Hlen, length_app. cbn [length]. lia.
Defined.

(** * Further properties of the user-history modal *)

(** ** The rate limit *)

Lemma count_le_length {A} (P : A -> Prop) `{forall x, Decision (P x)} (l : list A) :
  0 <= count P l <= Z.of_nat (length l).
Proof. unfold count. pose proof (length_filter P l). lia. Qed.

Lemma count_Permutation {A} (P : A -> Prop) `{forall x, Decision (P x)}
    (l l' : list A) :
  l ≡ₚ l' -> count P l = count P l'.
Proof.
  intros Hp. unfold count. f_equal. apply Permutation_length.
  now apply filter_Permutation.
Qed.

(** X14.  The numbers of the display are bounded and fit together:
    [recentFailedAttempts] lies between 0 and the number of attempts,
    [remainingAttempts] between 0 and 10; the user is rate limited
    exactly when no attempt remains; and as long as the user is not, the
    two numbers add up to 10. *)
Theorem calculateRateLimit_bounds (l : list ClaimAttempt) (now : Z) :
  let info := calculateRateLimit l now in
  0 <= recentFailedAttempts info <= Z.of_nat (length l) /\
  0 <= remainingAttempts info <= 10 /\
  (isRateLimited info = true <-> remainingAttempts info = 0) /\
  (isRateLimited info = false ->
   recentFailedAttempts info + remainingAttempts info = 10).
Proof.
  cbv zeta.
  pose proof (recentFailedAttempts_eq l now) as R.
  pose proof (remainingAttempts_eq l now) as M.
  pose proof (isRateLimited_eq l now) as L.
  pose proof (count_le_length (failedSince now) l) as B.
  rewrite L, M, R. split; [exact B|]. split; [lia|]. split.
  - rewrite bool_decide_eq_true. lia.
  - rewrite bool_decide_eq_false. lia.
Qed.

Lemma calculateRateLimit_bounds_witness :
  recentFailedAttempts (calculateRateLimit sampleAttempts 0)
  + remainingAttempts (calculateRateLimit sampleAttempts 0) = 10.
Proof.
  apply (proj2 (proj2 (proj2 (calculateRateLimit_bounds sampleAttempts 0)))).
  reflexivity.
Defined.

(** X15.  The display depends on the failed attempts only, and not on
    their order: two lists with the same failed attempts, in any order
    and among any successes, are displayed alike. *)
Theorem calculateRateLimit_failures_only (l l' : list ClaimAttempt) (now : Z) :
  filter (fun a => success a = false) l ≡ₚ filter (fun a => success a = false) l' ->
  calculateRateLimit l now = calculateRateLimit l' now.
Proof.
  intros Hp.
  assert (Hc : forall k, count (failedSince now) k
                         = count (failedSince now)
                                 (filter (fun a => success a = false) k)).
  { intros k. unfold count. f_equal. f_equal.
    induction k as [|a k IH]; [reflexivity|].
    rewrite !filter_cons.
    destruct (decide (success a = false)) as [Hf|Hs].
    - rewrite filter_cons.
      destruct (decide (failedSince now a)); now rewrite IH.
    - destruct (decide (failedSince now a)) as [[Hf _]|_]; [contradiction|].
      exact IH. }
  assert (Heq : recentFailedAttempts (calculateRateLimit l now)
                = recentFailedAttempts (calculateRateLimit l' now)).
  { rewrite !recentFailedAttempts_eq, (Hc l), (Hc l').
    now apply count_Permutation. }
  unfold calculateRateLimit in *. cbn [recentFailedAttempts] in Heq.
  now rewrite Heq.
Qed.

Lemma calculateRateLimit_failures_only_witness :
  calculateRateLimit sampleAttempts 0
  = calculateRateLimit
      [attempt "A2" false (minutes (-5)); attempt "A1" false (minutes (-20))] 0.
Proof.
  apply (calculateRateLimit_failures_only sampleAttempts
           [attempt "A2" false (minutes (-5)); attempt "A1" false (minutes (-20))] 0).
  vm_compute. apply perm_swap.
Defined.

(** X16.  The rate limit wears off with time: at a later reading of the
    clock no more failures are recent and no fewer attempts remain; and
    once every failure is more than 15 minutes old, none is recent and the
    user is not rate limited. *)
Theorem calculateRateLimit_wears_off (l : list ClaimAttempt) (now now' : Z) :
  now <= now' ->
  recentFailedAttempts (calculateRateLimit l now')
  <= recentFailedAttempts (calculateRateLimit l now) /\
  remainingAttempts (calculateRateLimit l now)
  <= remainingAttempts (calculateRateLimit l now') /\
  (Forall (fun a => success a = false -> timestamp a + 900000 < now') l ->
   calculateRateLimit l now'
   = {| recentFailedAttempts := 0; isRateLimited := false;
        remainingAttempts := 10 |}).
Proof.
  intros Hle.
  assert (Hmono : recentFailedAttempts (calculateRateLimit l now')
                  <= recentFailedAttempts (calculateRateLimit l now)).
  { rewrite !recentFailedAttempts_eq. unfold count. apply inj_le.
    induction l as [|a l IH]; [reflexivity|]. rewrite !filter_cons.
    destruct (decide (failedSince now' a)) as [[Hf Ht]|_].
    - destruct (decide (failedSince now a)) as [_|n].
      + cbn [length]. lia.
      + exfalso. apply n. split; [exact Hf|lia].
    - destruct (decide (failedSince now a)); cbn [length]; lia. }
  split; [exact Hmono|]. split.
  - rewrite !remainingAttempts_eq. lia.
  - intros Hold. unfold calculateRateLimit.
    rewrite filter_bool_none; [reflexivity|]. intros a Ha.
    rewrite List.Forall_forall in Hold. specialize (Hold a Ha).
    destruct (success a); [reflexivity|]. cbn [negb andb].
    apply Z.leb_gt. specialize (Hold eq_refl). lia.
Qed.

Lemma calculateRateLimit_wears_off_witness :
  calculateRateLimit sampleAttempts (minutes 11)
  = {| recentFailedAttempts := 0; isRateLimited := false; remainingAttempts := 10 |}.
Proof.
  apply (proj2 (proj2 (calculateRateLimit_wears_off sampleAttempts 0 (minutes 11)
                         ltac:(vm_compute; discriminate)))).
  apply List.Forall_forall. intros a Ha.
  repeat (destruct Ha as [<-|Ha];
          [intros H; first [discriminate H | vm_compute; reflexivity]|]).
  destruct Ha.
Defined.

(** ** What the modal shows *)

(** X17.  The rate-limit box.  It is absent exactly while the modal is
    loading and when the user has no attempt.  Otherwise it is red, with
    the count of recent failures, exactly when these are 10 or more;
    yellow from 6 to 9 and green up to 5, in both cases with the attempts
    remaining, which are 10 minus the recent failures. *)
Theorem rateLimitBox_cases (st : UserHistoryDetailsModal.State) (now : Z) :
  let r :=
    recentFailedAttempts
      (calculateRateLimit (UserHistoryDetailsModal.claimAttempts st) now) in
  match UserHistoryDetailsModal.rateLimitBox st now with
  | None =>
      UserHistoryDetailsModal.loading st = true \/
      UserHistoryDetailsModal.claimAttempts st = []
  | Some (color, text) =>
      UserHistoryDetailsModal.loading st = false /\
      UserHistoryDetailsModal.claimAttempts st <> [] /\
      match color with
      | Red => 10 <= r /\ text = RateLimitedText r
      | Yellow => 6 <= r <= 9 /\ text = RemainingText (10 - r) r
      | Green => 0 <= r <= 5 /\ text = RemainingText (10 - r) r
      end
  end.
Proof.
  cbv zeta. unfold UserHistoryDetailsModal.rateLimitBox.
  destruct (UserHistoryDetailsModal.loading st); [now left|].
  destruct (UserHistoryDetailsModal.claimAttempts st) as [|a l] eqn:El;
    [now right|].
  cbn [length]. destruct (Z.ltb_spec 0 (Z.of_nat (S (length l)))) as [_|]; [|lia].
  cbv zeta. split; [reflexivity|]. split; [discriminate|].
  pose proof (isRateLimited_eq (a :: l) now) as L.
  pose proof (remainingAttempts_eq (a :: l) now) as M.
  pose proof (recentFailedAttempts_eq (a :: l) now) as R.
  pose proof (count_le_length (failedSince now) (a :: l)) as B.
  rewrite <- R in B.
  destruct (isRateLimited (calculateRateLimit (a :: l) now)) eqn:E.
  - symmetry in L. apply bool_decide_eq_true in L. split; [exact L|reflexivity].
  - symmetry in L. apply bool_decide_eq_false in L.
    destruct (Z.ltb_spec 5 (recentFailedAttempts (calculateRateLimit (a :: l) now))).
    + split; [lia|]. f_equal. lia.
    + split; [lia|]. f_equal. lia.
Qed.

(** X18.  While the modal is loading it shows neither the heading nor
    the list of attempts.  Otherwise the attempts listed are the last 10
    recorded (all of them when there are fewer), the most recently
    recorded first: the [k]-th line is the [k]-th attempt from the end;
    and the heading counts the lines and the attempts. *)
Theorem listedAttempts_spec (st : UserHistoryDetailsModal.State) :
  let all := UserHistoryDetailsModal.claimAttempts st in
  let n := length all in
  (UserHistoryDetailsModal.loading st = true ->
   UserHistoryDetailsModal.listedAttempts st = [] /\
   UserHistoryDetailsModal.heading st = None) /\
  (UserHistoryDetailsModal.loading st = false ->
   length (UserHistoryDetailsModal.listedAttempts st) = Nat.min 10 n /\
   (forall k, (k < Nat.min 10 n)%nat ->
      UserHistoryDetailsModal.listedAttempts st !! k = all !! (n - 1 - k)%nat) /\
   UserHistoryDetailsModal.heading st
   = Some (Z.of_nat (Nat.min 10 n), Z.of_nat n)).
Proof.
  cbv zeta.
  unfold UserHistoryDetailsModal.listedAttempts, UserHistoryDetailsModal.heading.
  split; intros ->; [split; reflexivity|].
  set (all := UserHistoryDetailsModal.claimAttempts st).
  assert (Hs : Js.slice_from all (-10) = drop (length all - 10) all).
  { unfold Js.slice_from. cbn [Z.ltb Z.compare]. f_equal. lia. }
  rewrite Hs.
  assert (Hlen : length (drop (length all - 10) all) = Nat.min 10 (length all))
    by (rewrite length_drop; lia).
  split; [now rewrite length_reverse|]. split.
  - intros k Hk. rewrite reverse_lookup by lia.
    rewrite lookup_drop, Hlen. f_equal. lia.
  - now rewrite Hlen.
Qed.

(** X18 on the example of the specification, once loaded: the first line
    is the success of a minute ago, the last attempt recorded. *)
Lemma listedAttempts_spec_witness :
  UserHistoryDetailsModal.loading
    (UserHistoryDetailsModal.setClaimAttempts sampleAttempts
       UserHistoryDetailsModal.initial) = false /\
  UserHistoryDetailsModal.listedAttempts
    (UserHistoryDetailsModal.setClaimAttempts sampleAttempts
       UserHistoryDetailsModal.initial) !! 0%nat
  = Some (attempt "A3" true (minutes (-1))) /\
  UserHistoryDetailsModal.heading
    (UserHistoryDetailsModal.setClaimAttempts sampleAttempts
       UserHistoryDetailsModal.initial) = Some (3, 3).
Proof.
  split; [reflexivity|].
  destruct (proj2 (listedAttempts_spec
                     (UserHistoryDetailsModal.setClaimAttempts sampleAttempts
                        UserHistoryDetailsModal.initial)) eq_refl)
    as (_ & Hk & Hh).
  split.
  - rewrite (Hk 0%nat) by (vm_compute; lia). reflexivity.
  - rewrite Hh. reflexivity.
Defined.

(** ** The requests of the modal *)

(** X19.  [fetchUserHistory] without a user id does nothing.  With one,
    it ends with [loading] off; a reply with [success] and a user
    replaces the two lists, a missing list counting as empty, and clears
    the error; any other outcome keeps the lists shown and sets the
    error to the text the server sent or, without one and for every
    exception, to "Failed to fetch user history". *)
Theorem fetchUserHistory_outcomes (props : UserHistoryDetailsModal.Props)
    (res : Fetched (option UserHistoryDetailsModal.UserData))
    (st : UserHistoryDetailsModal.State) :
  let st' := UserHistoryDetailsModal.fetchUserHistory props res st in
  (Js.truthy (UserHistoryDetailsModal.userId props) = false -> st' = st) /\
  (Js.truthy (UserHistoryDetailsModal.userId props) = true ->
   UserHistoryDetailsModal.loading st' = false /\
   UserHistoryDetailsModal.isClearing st' = UserHistoryDetailsModal.isClearing st /\
   match accepted res with
   | Some (Some user) =>
       UserHistoryDetailsModal.userHistory st'
       = default [] (UserHistoryDetailsModal.history user) /\
       UserHistoryDetailsModal.claimAttempts st'
       = default [] (UserHistoryDetailsModal.claim_attempts user) /\
       UserHistoryDetailsModal.error st' = None
   | _ =>
       UserHistoryDetailsModal.userHistory st'
       = UserHistoryDetailsModal.userHistory st /\
       UserHistoryDetailsModal.claimAttempts st'
       = UserHistoryDetailsModal.claimAttempts st /\
       UserHistoryDetailsModal.error st'
       = Some (default "Failed to fetch user history" (serverError res))
   end).
Proof.
  cbv zeta. unfold UserHistoryDetailsModal.fetchUserHistory. split.
  - intros ->. reflexivity.
  - intros ->. cbn [negb]. cbv zeta.
    destruct res as [err|[ok e p]]; [cbn; repeat split; reflexivity|].
    destruct ok, p as [user|]; cbn; try (repeat split; reflexivity);
      destruct e as [e|]; cbn; try (repeat split; reflexivity);
      destruct (String.eqb e ""); repeat split; reflexivity.
Qed.

Lemma fetchUserHistory_outcomes_witness :
  UserHistoryDetailsModal.claimAttempts
    (UserHistoryDetailsModal.fetchUserHistory
       {| UserHistoryDetailsModal.isOpen := true;
          UserHistoryDetailsModal.userId := Some "u1";
          UserHistoryDetailsModal.userName := "Alice";
          UserHistoryDetailsModal.userEmail := "alice@example.com" |}
       (Rejected (ThrownError "network down"))
       (UserHistoryDetailsModal.setClaimAttempts sampleAttempts
          UserHistoryDetailsModal.initial))
  = sampleAttempts.
Proof.
  apply (proj2 (fetchUserHistory_outcomes
                  {| UserHistoryDetailsModal.isOpen := true;
                     UserHistoryDetailsModal.userId := Some "u1";
                     UserHistoryDetailsModal.userName := "Alice";
                     UserHistoryDetailsModal.userEmail := "alice@example.com" |}
                  (Rejected (ThrownError "network down"))
                  (UserHistoryDetailsModal.setClaimAttempts sampleAttempts
                     UserHistoryDetailsModal.initial)) eq_refl).
Defined.

Lemma clearClaimAttempts_request_Some (props : UserHistoryDetailsModal.Props)
    (t : ClearType) (confirmed : bool) req :
  UserHistoryDetailsModal.clearClaimAttempts_request props t confirmed = Some req ->
  UserHistoryDetailsModal.userEmail props <> "" /\
  req = clearRequest (UserHistoryDetailsModal.userEmail props) (clearTypeString t) /\
  recognizedPolicy (Some (clearTypeString t)).
Proof.
  unfold UserHistoryDetailsModal.clearClaimAttempts_request. cbn [Js.truthy].
  destruct (String.eqb_spec (UserHistoryDetailsModal.userEmail props) "")
    as [He|He]; cbn [negb]; [discriminate|].
  destruct confirmed; cbn [negb]; [|discriminate].
  intros [= <-]. split; [exact He|]. split; [reflexivity|].
  unfold recognizedPolicy. destruct t; cbn; auto.
Qed.

(** X20.  [clearClaimAttempts] sends a request only for a user with an
    email and after the admin has confirmed, and otherwise leaves the
    state alone.  The request carries that email and one of the three
    policies.  When it has settled, [isClearing] is off; after a reply
    with [success] the rest of the state is that of a [fetchUserHistory];
    after any other outcome the lists are the ones shown before and the
    error is the text the server sent or, without one and for every
    exception, "Failed to clear claim attempts". *)
Theorem clearClaimAttempts_outcomes (props : UserHistoryDetailsModal.Props)
    (t : ClearType) (confirmed : bool) (post : Fetched unit)
    (refetch : Fetched (option UserHistoryDetailsModal.UserData))
    (st : UserHistoryDetailsModal.State) :
  let st' :=
    UserHistoryDetailsModal.clearClaimAttempts props t confirmed post refetch st in
  let request :=
    UserHistoryDetailsModal.clearClaimAttempts_request props t confirmed in
  (request = None <->
   UserHistoryDetailsModal.userEmail props = "" \/ confirmed = false) /\
  (request = None -> st' = st) /\
  (forall req, request = Some req ->
     req = Some {| userEmail := Some (UserHistoryDetailsModal.userEmail props);
                   clearType := Some (clearTypeString t) |} /\
     recognizedPolicy (Some (clearTypeString t)) /\
     UserHistoryDetailsModal.isClearing st' = false /\
     match accepted post with
     | Some _ =>
         st' = UserHistoryDetailsModal.setIsClearing false
                 (UserHistoryDetailsModal.fetchUserHistory props refetch
                    (UserHistoryDetailsModal.setIsClearing true st))
     | None =>
         UserHistoryDetailsModal.userHistory st'
         = UserHistoryDetailsModal.userHistory st /\
         UserHistoryDetailsModal.claimAttempts st'
         = UserHistoryDetailsModal.claimAttempts st /\
         UserHistoryDetailsModal.error st'
         = Some (default "Failed to clear claim attempts" (serverError post))
     end).
Proof.
  cbv zeta.
  unfold UserHistoryDetailsModal.clearClaimAttempts,
    UserHistoryDetailsModal.clearClaimAttempts_request.
  cbn [Js.truthy].
  destruct (String.eqb_spec (UserHistoryDetailsModal.userEmail props) "")
    as [He|He]; cbn [negb].
  { split; [split; [now left|reflexivity]|]. split; [reflexivity|].
    intros req [=]. }
  destruct confirmed; cbn [negb].
  2:{ split; [split; [now right|reflexivity]|]. split; [reflexivity|].
      intros req [=]. }
  split; [split; [discriminate|intros [H|H]; [contradiction|discriminate]]|].
  split; [discriminate|].
  intros req [= <-]. split; [reflexivity|]. split.
  { unfold recognizedPolicy. destruct t; cbn; auto. }
  cbv zeta.
  destruct post as [err|[ok e []]];
    cbn [accepted serverError Reply.success Reply.payload Reply.error].
  - repeat split; reflexivity.
  - destruct ok.
    + split; reflexivity.
    + split; [reflexivity|]. destruct e as [e|]; cbn; [|repeat split; reflexivity].
      destruct (String.eqb e ""); repeat split; reflexivity.
Qed.

Lemma clearClaimAttempts_outcomes_witness :
  UserHistoryDetailsModal.error
    (UserHistoryDetailsModal.clearClaimAttempts
       {| UserHistoryDetailsModal.isOpen := true;
          UserHistoryDetailsModal.userId := Some "u1";
          UserHistoryDetailsModal.userName := "Alice";
          UserHistoryDetailsModal.userEmail := "alice@example.com" |}
       ClearFailed true
       (Resolved (replyOf (json (ErrorBody "User not found") (Some 404))))
       (Rejected ThrownOther)
       UserHistoryDetailsModal.initial)
  = Some "User not found".
Proof.
  destruct (proj2 (proj2 (clearClaimAttempts_outcomes
              {| UserHistoryDetailsModal.isOpen := true;
                 UserHistoryDetailsModal.userId := Some "u1";
                 UserHistoryDetailsModal.userName := "Alice";
                 UserHistoryDetailsModal.userEmail := "alice@example.com" |}
              ClearFailed true
              (Resolved (replyOf (json (ErrorBody "User not found") (Some 404))))
              (Rejected ThrownOther)
              UserHistoryDetailsModal.initial)) _ eq_refl)
    as (_ & _ & _ & H).
  cbn in H. destruct H as (_ & _ & H). exact H.
Defined.

(** ** The modal and the route together *)

Section ModalAndRoute.

Context {Snapshot : Type}.
Variable sanitizeDataForLogging : Counts -> Snapshot.

Local Abbreviation clear := (POST sanitizeDataForLogging).

(** X21.  A request of the modal is never refused as malformed: the
    route does not answer it with 400, and answers it with 500 only when
    a call the route awaits rejects; for an admin the answer is 200 when
    a user has the email, 404 when none has, or that 500. *)
Theorem modal_request_well_formed (props : UserHistoryDetailsModal.Props)
    (t : ClearType) (confirmed : bool) req rej env (w : World Snapshot) :
  UserHistoryDetailsModal.clearClaimAttempts_request props t confirmed = Some req ->
  let r := (POST_try sanitizeDataForLogging rej env req w).1 in
  status r <> 400 /\
  (status r = 500 -> someRejection rej) /\
  (adminAuthenticated env ->
   (status r = 200 /\
    exists u, u ∈ users w /\ email u = UserHistoryDetailsModal.userEmail props) \/
   (status r = 404 /\
    noUserMatches (users w) (UserHistoryDetailsModal.userEmail props)) \/
   (status r = 500 /\ someRejection rej)).
Proof.
  intros Hreq. cbv zeta.
  apply clearClaimAttempts_request_Some in Hreq as (He & -> & Hpol).
  unfold clearRequest.
  assert (Htr : Js.truthy (Some (UserHistoryDetailsModal.userEmail props)) = true)
    by (apply truthy_true; eauto).
  apply recognizedPolicy_includes in Hpol.
  unfold POST_try, someRejection, adminAuthenticated.
  cbn [userEmail clearType]. rewrite Htr, Hpol. cbn [negb].
  cbv zeta. cbn [default]. unfold id.
  destruct rej as [r1 r2 r3 r4 r5 r6].
  cbn [getSession_rejects isAdmin_rejects connectMongoDB_rejects
       findOne_rejects save_rejects logAdminAction_rejects].
  destruct r1; [cbn; split; [discriminate|]; split; [tauto|]; intros _; tauto|].
  destruct (getSession env ≫= Auth0.user) as [su|].
  2:{ cbn. split; [discriminate|]. split; [discriminate|].
      intros [[su' Hsu'] _]. discriminate Hsu'. }
  destruct r2; [cbn; split; [discriminate|]; split; [tauto|]; intros _; tauto|].
  destruct (isAdmin env); cbn [negb].
  2:{ cbn. split; [discriminate|]. split; [discriminate|].
      intros [_ Hadm']. discriminate Hadm'. }
  destruct r3; [cbn; split; [discriminate|]; split; [tauto|]; intros _; tauto|].
  destruct r4; [cbn; split; [discriminate|]; split; [tauto|]; intros _; tauto|].
  destruct (User_findOne (users w) (UserHistoryDetailsModal.userEmail props))
    as [[i u]|] eqn:Hfind.
  2:{ cbn. split; [discriminate|]. split; [discriminate|].
      intros _. right; left. split; [reflexivity|].
      now apply User_findOne_none. }
  destruct r5; [cbn; split; [discriminate|]; split; [tauto|]; intros _; tauto|].
  assert (Hu : exists u0, u0 ∈ users w /\
                 email u0 = UserHistoryDetailsModal.userEmail props).
  { apply User_findOne_lookup in Hfind as [Hi Hu].
    exists u. split; [eapply list_elem_of_lookup_2, Hi|exact Hu]. }
  destruct (Js.truthy (Auth0.email su)).
  - destruct r6; cbn.
    + split; [discriminate|]. split; [tauto|]. intros _. tauto.
    + split; [discriminate|]. split; [discriminate|]. intros _. now left.
  - cbn. split; [discriminate|]. split; [discriminate|]. intros _. now left.
Qed.

(** X22.  Reset Rate Limit, from the button to the box.  An admin
    confirms the reset for a user the route finds; the route clears, the
    modal fetches the user again and is handed the attempts now stored.
    Then the modal shows these attempts and no error, and on a client
    whose clock is not behind the server's the rate-limit box, if there
    is one, is green with 10 attempts remaining. *)
Theorem reset_rate_limit_end_to_end (props : UserHistoryDetailsModal.Props)
    env (w : World Snapshot) (st : UserHistoryDetailsModal.State)
    i u (h : option (list HuntItem.t)) (clientNow : Z) :
  UserHistoryDetailsModal.userEmail props <> "" ->
  Js.truthy (UserHistoryDetailsModal.userId props) = true ->
  adminAuthenticated env ->
  User_findOne (users w) (UserHistoryDetailsModal.userEmail props) = Some (i, u) ->
  now env <= clientNow ->
  exists req stored,
    UserHistoryDetailsModal.clearClaimAttempts_request props ClearRateLimit true
    = Some req /\
    users (clear env req w).2 !! i = Some (set_claim_attempts u stored) /\
    let st' :=
      UserHistoryDetailsModal.clearClaimAttempts props ClearRateLimit true
        (Resolved (replyOf (clear env req w).1))
        (Resolved
           {| Reply.success := true; Reply.error := None;
              Reply.payload :=
                Some {| UserHistoryDetailsModal.history := h;
                        UserHistoryDetailsModal.claim_attempts := Some stored |} |})
        st in
    UserHistoryDetailsModal.claimAttempts st' = stored /\
    UserHistoryDetailsModal.error st' = None /\
    UserHistoryDetailsModal.isClearing st' = false /\
    UserHistoryDetailsModal.loading st' = false /\
    (UserHistoryDetailsModal.rateLimitBox st' clientNow = None \/
     UserHistoryDetailsModal.rateLimitBox st' clientNow
     = Some (Green, RemainingText 10 0)).
Proof.
  intros He Hid [[su Hsu] Hadm] Hfind Hclock.
  assert (Htr : Js.truthy (Some (UserHistoryDetailsModal.userEmail props)) = true)
    by (apply truthy_true; eauto).
  exists (clearRequest (UserHistoryDetailsModal.userEmail props) "rate-limit"),
         (clearAttempts "rate-limit" (now env) (default [] (claim_attempts u))).
  split.
  { unfold UserHistoryDetailsModal.clearClaimAttempts_request.
    now rewrite Htr. }
  rewrite (POST_success sanitizeDataForLogging env w su _ "rate-limit" i u
             Hsu Hadm He ltac:(auto) Hfind).
  cbn [fst snd users].
  destruct (User_findOne_lookup _ _ _ _ Hfind) as [Hi _].
  split; [apply list_lookup_insert_eq; eapply lookup_lt_Some, Hi|].
  cbv zeta.
  assert (Hreset := rate_limit_clear_then_display (now env) clientNow
                      (default [] (claim_attempts u)) Hclock).
  set (stored := clearAttempts "rate-limit" (now env)
                   (default [] (claim_attempts u))) in *.
  unfold UserHistoryDetailsModal.clearClaimAttempts. rewrite Htr.
  cbn [negb replyOf body accepted Reply.success].
  unfold UserHistoryDetailsModal.fetchUserHistory. rewrite Hid.
  cbn [negb Reply.success Reply.payload UserHistoryDetailsModal.claim_attempts
       UserHistoryDetailsModal.history default].
  unfold id.
  cbn [UserHistoryDetailsModal.setIsClearing UserHistoryDetailsModal.setLoading
       UserHistoryDetailsModal.setError UserHistoryDetailsModal.setClaimAttempts
       UserHistoryDetailsModal.setUserHistory
       UserHistoryDetailsModal.claimAttempts UserHistoryDetailsModal.error
       UserHistoryDetailsModal.isClearing UserHistoryDetailsModal.loading
       UserHistoryDetailsModal.userHistory].
  repeat (split; [reflexivity|]).
  unfold UserHistoryDetailsModal.rateLimitBox.
  cbv [UserHistoryDetailsModal.setIsClearing UserHistoryDetailsModal.setLoading
       UserHistoryDetailsModal.setError UserHistoryDetailsModal.setClaimAttempts
       UserHistoryDetailsModal.setUserHistory
       UserHistoryDetailsModal.claimAttempts UserHistoryDetailsModal.loading].
  destruct (0 <? Z.of_nat (length stored)); [right|now left].
  cbv zeta. rewrite Hreset. reflexivity.
Qed.

End ModalAndRoute.

(** X21 on the reset for [alice]: answered with 200 when nothing
    rejects, and with 500, never 400, when the [save] rejects. *)
Lemma modal_request_well_formed_witness :
  status (POST_try id noRejection adminEnv
            (clearRequest "alice@example.com" "rate-limit") sampleWorld).1 = 200 /\
  status (POST_try id
            {| getSession_rejects := false; isAdmin_rejects := false;
               connectMongoDB_rejects := false; findOne_rejects := false;
               save_rejects := true; logAdminAction_rejects := false |}
            adminEnv (clearRequest "alice@example.com" "rate-limit")
            sampleWorld).1 <> 400.
Proof.
  split; [reflexivity|].
  apply (modal_request_well_formed id
           {| UserHistoryDetailsModal.isOpen := true;
              UserHistoryDetailsModal.userId := Some "u1";
              UserHistoryDetailsModal.userName := "Alice";
              UserHistoryDetailsModal.userEmail := "alice@example.com" |}
           ClearRateLimit true
           (clearRequest "alice@example.com" "rate-limit")).
  reflexivity.
Defined.

(** A [logAdminAction] that rejects: the answer is 500, no record is
    written, and the list of [alice] has been cleared all the same. *)
Example POST_try_after_save :
  let rej := {| getSession_rejects := false; isAdmin_rejects := false;
                connectMongoDB_rejects := false; findOne_rejects := false;
                save_rejects := false; logAdminAction_rejects := true |} in
  let run := POST_try id rej adminEnv
               (clearRequest "alice@example.com" "failed") sampleWorld in
  status run.1 = 500 /\
  auditLog run.2 = [] /\
  users run.2 = [set_claim_attempts alice [attempt "A3" true (minutes (-1))]; bob].
Proof. cbv zeta. repeat split; vm_compute; reflexivity. Qed.

Lemma reset_rate_limit_end_to_end_witness :
  exists req stored,
    users (POST id adminEnv req sampleWorld).2 !! 0%nat
    = Some (set_claim_attempts alice stored) /\
    UserHistoryDetailsModal.claimAttempts
      (UserHistoryDetailsModal.clearClaimAttempts
         {| UserHistoryDetailsModal.isOpen := true;
            UserHistoryDetailsModal.userId := Some "u1";
            UserHistoryDetailsModal.userName := "Alice";
            UserHistoryDetailsModal.userEmail := "alice@example.com" |}
         ClearRateLimit true
         (Resolved (replyOf (POST id adminEnv req sampleWorld).1))
         (Resolved
            {| Reply.success := true; Reply.error := None;
               Reply.payload :=
                 Some {| UserHistoryDetailsModal.history := None;
                         UserHistoryDetailsModal.claim_attempts := Some stored |} |})
         UserHistoryDetailsModal.initial) = stored.
Proof.
  destruct (reset_rate_limit_end_to_end id
              {| UserHistoryDetailsModal.isOpen := true;
                 UserHistoryDetailsModal.userId := Some "u1";
                 UserHistoryDetailsModal.userName := "Alice";
                 UserHistoryDetailsModal.userEmail := "alice@example.com" |}
              adminEnv sampleWorld UserHistoryDetailsModal.initial
              0%nat alice None 0
              ltac:(discriminate) eq_refl
              ltac:(split; [eexists; reflexivity|reflexivity])
              ltac:(vm_compute; reflexivity) ltac:(reflexivity))
    as (req & stored & _ & Hstored & Hst & _).
  exists req, stored. split; [exact Hstored|exact Hst].
Defined.

(** * Properties of the hook [useHuntItems] *)

(** X23.  [deleteHuntItem].  Declined, it changes nothing.  Confirmed
    and accepted by the server, it leaves exactly the items whose [_id]
    is not the one deleted, in their order, and no error; confirmed and
    not accepted, it leaves the list as it is and sets an error.  In no
    case does it touch the item being edited, the form or the flags. *)
Theorem deleteHuntItem_spec (id : string) (confirmed : bool) (res : Fetched unit)
    (st : useHuntItems.State) :
  let st' := useHuntItems.deleteHuntItem id confirmed res st in
  (confirmed = false -> st' = st) /\
  (confirmed = true ->
   match accepted res with
   | Some _ =>
       retains (fun item => HuntItem._id item <> id)
               (useHuntItems.huntItems st) (useHuntItems.huntItems st') /\
       useHuntItems.error st' = None
   | None =>
       useHuntItems.huntItems st' = useHuntItems.huntItems st /\
       is_Some (useHuntItems.error st')
   end) /\
  useHuntItems.editingItem st' = useHuntItems.editingItem st /\
  useHuntItems.formData st' = useHuntItems.formData st /\
  useHuntItems.showAddForm st' = useHuntItems.showAddForm st /\
  useHuntItems.loading st' = useHuntItems.loading st /\
  useHuntItems.isSubmitting st' = useHuntItems.isSubmitting st.
Proof.
  cbv zeta. unfold useHuntItems.deleteHuntItem.
  destruct confirmed; cbn [negb].
  2:{ split; [reflexivity|]. split; [discriminate|]. repeat split. }
  split; [discriminate|]. cbv zeta.
  destruct res as [err|[ok e []]]; cbn [accepted Reply.success Reply.payload].
  - split; [intros _; split; [reflexivity|eexists; reflexivity]|].
    repeat split.
  - destruct ok; cbn [negb].
    + split; [|repeat split]. intros _. split; [|reflexivity].
      cbn [useHuntItems.setHuntItems useHuntItems.huntItems].
      apply filter_bool_retains. intros item.
      rewrite negb_true_iff. apply String.eqb_neq.
    + split; [intros _; split; [reflexivity|eexists; reflexivity]|].
      repeat split.
Qed.

(** X23 on a list of two items: a confirmed delete that the server
    accepts keeps the other item only, and one that the server refuses
    keeps both and shows the server's text. *)
Lemma deleteHuntItem_spec_witness :
  useHuntItems.huntItems
    (useHuntItems.deleteHuntItem "h1" true (ok tt)
       (useHuntItems.setHuntItems [sampleItem; otherItem] useHuntItems.initial))
  = [otherItem] /\
  retains (fun item => HuntItem._id item <> "h1") [sampleItem; otherItem]
          [otherItem] /\
  useHuntItems.huntItems
    (useHuntItems.deleteHuntItem "h1" true
       (Resolved {| Reply.success := false; Reply.error := Some "Forbidden";
                    Reply.payload := tt |})
       (useHuntItems.setHuntItems [sampleItem; otherItem] useHuntItems.initial))
  = [sampleItem; otherItem] /\
  is_Some
    (useHuntItems.error
       (useHuntItems.deleteHuntItem "h1" true
          (Resolved {| Reply.success := false; Reply.error := Some "Forbidden";
                       Reply.payload := tt |})
          (useHuntItems.setHuntItems [sampleItem; otherItem] useHuntItems.initial))).
Proof.
  pose proof (deleteHuntItem_spec "h1" true (ok tt)
                (useHuntItems.setHuntItems [sampleItem; otherItem]
                   useHuntItems.initial)) as Hok.
  pose proof (deleteHuntItem_spec "h1" true
                (Resolved {| Reply.success := false; Reply.error := Some "Forbidden";
                             Reply.payload := tt |})
                (useHuntItems.setHuntItems [sampleItem; otherItem]
                   useHuntItems.initial)) as Hno.
  cbv zeta in Hok, Hno.
  destruct Hok as (_ & Hok & _). destruct Hno as (_ & Hno & _).
  specialize (Hok eq_refl). specialize (Hno eq_refl).
  cbn [accepted ok Reply.success Reply.payload] in Hok, Hno.
  destruct Hok as [Hkept _]. destruct Hno as [Hsame Herr].
  split; [reflexivity|]. split; [exact Hkept|]. split; [exact Hsame|exact Herr].
Defined.

(** X24.  [updateHuntItem].  Accepted by the server, it puts the item of
    the reply in the place of every item that has the [_id] of the item
    sent, moves and removes nothing, and closes the editor; when the
    reply keeps that [_id], the [_id]s of the list are as before.  Not
    accepted, it leaves the list and the editor as they are and sets an
    error. *)
Theorem updateHuntItem_spec (item : HuntItem.t) (res : Fetched HuntItem.t)
    (st : useHuntItems.State) :
  let st' := useHuntItems.updateHuntItem item res st in
  match accepted res with
  | Some new =>
      length (useHuntItems.huntItems st') = length (useHuntItems.huntItems st) /\
      (forall k old,
         useHuntItems.huntItems st !! k = Some old ->
         useHuntItems.huntItems st' !! k
         = Some (if decide (HuntItem._id old = HuntItem._id item)
                 then new else old)) /\
      (HuntItem._id new = HuntItem._id item ->
       map HuntItem._id (useHuntItems.huntItems st')
       = map HuntItem._id (useHuntItems.huntItems st)) /\
      useHuntItems.editingItem st' = None /\
      useHuntItems.error st' = None
  | None =>
      useHuntItems.huntItems st' = useHuntItems.huntItems st /\
      useHuntItems.editingItem st' = useHuntItems.editingItem st /\
      is_Some (useHuntItems.error st')
  end.
Proof.
  cbv zeta. unfold useHuntItems.updateHuntItem. cbv zeta.
  destruct res as [err|[ok e new]]; cbn [accepted Reply.success Reply.payload].
  - repeat split. eexists; reflexivity.
  - destruct ok; cbn [negb].
    2:{ repeat split. eexists; reflexivity. }
    cbn [useHuntItems.setEditingItem useHuntItems.setHuntItems
         useHuntItems.setError useHuntItems.huntItems
         useHuntItems.editingItem useHuntItems.error].
    split; [apply length_map|]. split; [|split; [|split; reflexivity]].
    + intros k old Hk.
      change (map ?f ?l) with (f <$> l). rewrite list_lookup_fmap, Hk.
      cbn [fmap option_fmap option_map]. f_equal.
      destruct (String.eqb_spec (HuntItem._id old) (HuntItem._id item));
        destruct (decide (HuntItem._id old = HuntItem._id item));
        congruence.
    + intros Hid. rewrite map_map. apply map_ext. intros old.
      destruct (String.eqb_spec (HuntItem._id old) (HuntItem._id item));
        congruence.
Qed.

Lemma updateHuntItem_spec_witness :
  useHuntItems.huntItems
    (useHuntItems.updateHuntItem sampleItem (ok renamedItem)
       (useHuntItems.setHuntItems [sampleItem] useHuntItems.initial)) !! 0%nat
  = Some renamedItem /\
  map HuntItem._id
    (useHuntItems.huntItems
       (useHuntItems.updateHuntItem sampleItem (ok renamedItem)
          (useHuntItems.setHuntItems [sampleItem] useHuntItems.initial)))
  = ["h1"].
Proof.
  pose proof (updateHuntItem_spec sampleItem (ok renamedItem)
                (useHuntItems.setHuntItems [sampleItem] useHuntItems.initial))
    as H.
  cbv zeta in H. cbn [accepted ok Reply.success Reply.payload] in H.
  destruct H as (_ & Hk & Hids & _). split.
  - rewrite (Hk 0%nat sampleItem eq_refl). reflexivity.
  - rewrite (Hids eq_refl). reflexivity.
Defined.

(** X25.  [createHuntItem].  Accepted by the server, it puts the new
    item before the items shown, empties the form and closes it; not
    accepted, it keeps the list, what the form holds and the form open
    or closed as it was, and sets an error.  Either way it ends with
    [isSubmitting] off and does not touch the item being edited. *)
Theorem createHuntItem_spec (res : Fetched HuntItem.t) (st : useHuntItems.State) :
  let st' := useHuntItems.createHuntItem res st in
  match accepted res with
  | Some new =>
      useHuntItems.huntItems st' = new :: useHuntItems.huntItems st /\
      useHuntItems.formData st' = emptyFormData /\
      useHuntItems.showAddForm st' = false /\
      useHuntItems.error st' = None
  | None =>
      useHuntItems.huntItems st' = useHuntItems.huntItems st /\
      useHuntItems.formData st' = useHuntItems.formData st /\
      useHuntItems.showAddForm st' = useHuntItems.showAddForm st /\
      is_Some (useHuntItems.error st')
  end /\
  useHuntItems.isSubmitting st' = false /\
  useHuntItems.isSubmitting (useHuntItems.createHuntItem_begin st) = true /\
  useHuntItems.editingItem st' = useHuntItems.editingItem st.
Proof.
  cbv zeta. unfold useHuntItems.createHuntItem. cbv zeta.
  destruct res as [err|[ok e new]]; cbn [accepted Reply.success Reply.payload].
  - repeat split. eexists; reflexivity.
  - destruct ok; cbn [negb]; repeat split. eexists; reflexivity.
Qed.

(** The error an action of the hook shows when its request is not
    accepted: the message of the exception when an [Error] was thrown;
    the text the server sent when the reply has one; and otherwise the
    text of the action, "Failed to fetch hunt items", "Failed to create
    hunt item", "Failed to update hunt item" or "Failed to delete hunt
    item".  An error shown before is never kept. *)
Lemma hook_error_message (st : useHuntItems.State) (item : HuntItem.t)
    (id : string) :
  let shown {A} (res : Fetched A) (fallback : string) : option string :=
    match res with
    | Rejected err => Some (messageOf err fallback)
    | Resolved data =>
        if Reply.success data then None
        else Some (default fallback (serverError res))
    end in
  (forall res, useHuntItems.error (useHuntItems.fetchHuntItems res st)
               = shown res "Failed to fetch hunt items") /\
  (forall res, useHuntItems.error (useHuntItems.createHuntItem res st)
               = shown res "Failed to create hunt item") /\
  (forall res, useHuntItems.error (useHuntItems.updateHuntItem item res st)
               = shown res "Failed to update hunt item") /\
  (forall res, useHuntItems.error (useHuntItems.deleteHuntItem id true res st)
               = shown res "Failed to delete hunt item").
Proof.
  cbv zeta.
  repeat split; intros [err|[ok e p]];
    try reflexivity;
    destruct ok; try reflexivity;
    destruct e as [e|]; try reflexivity;
    cbn; destruct (String.eqb e ""); reflexivity.
Qed.



(** X27.  Opening the modal.  While the modal stays closed the effect
    does nothing.  When it opens, the editor and the form are closed, the
    form is emptied and the flags are off once the request has settled;
    the list is the one of the reply when the server accepts, and
    otherwise the list shown before, with an error. *)
Theorem onOpen_spec (isOpen : bool) (res : Fetched (list HuntItem.t))
    (st : useHuntItems.State) :
  let st' := useHuntItems.onOpen isOpen res st in
  (isOpen = false -> st' = st) /\
  (isOpen = true ->
   useHuntItems.editingItem st' = None /\
   useHuntItems.showAddForm st' = false /\
   useHuntItems.formData st' = emptyFormData /\
   useHuntItems.isSubmitting st' = false /\
   useHuntItems.loading st' = false /\
   match accepted res with
   | Some items =>
       useHuntItems.huntItems st' = items /\ useHuntItems.error st' = None
   | None =>
       useHuntItems.huntItems st' = useHuntItems.huntItems st /\
       is_Some (useHuntItems.error st')
   end).
Proof.
  cbv zeta. unfold useHuntItems.onOpen. split; intros ->; [reflexivity|].
  cbv zeta. unfold useHuntItems.fetchHuntItems_end. cbv zeta.
  destruct res as [err|[ok e items]]; cbn [accepted Reply.success Reply.payload].
  - repeat split. eexists; reflexivity.
  - destruct ok; cbn [negb]; repeat split. eexists; reflexivity.
Qed.

Lemma onOpen_spec_witness :
  useHuntItems.formData
    (useHuntItems.onOpen true (Rejected ThrownOther)
       (useHuntItems.setFormData
          {| HuntItemFormData.name := "draft"; HuntItemFormData.description := "";
             HuntItemFormData.identifier := ""; HuntItemFormData.points := 1 |}
          useHuntItems.initial))
  = emptyFormData.
Proof.
  destruct (proj2 (onOpen_spec true (Rejected ThrownOther)
              (useHuntItems.setFormData
                 {| HuntItemFormData.name := "draft";
                    HuntItemFormData.description := "";
                    HuntItemFormData.identifier := "";
                    HuntItemFormData.points := 1 |}
                 useHuntItems.initial)) eq_refl) as (_ & _ & H & _).
  exact H.
Defined.

(** * Properties of the component [Socials] *)

Lemma string_length_app (s1 s2 : string) :
  String.length (s1 ++ s2)%string = (String.length s1 + String.length s2)%nat.
Proof.
  induction s1 as [|c s1 IH]; [reflexivity|].
  change (S (String.length (s1 ++ s2)%string)
          = S (String.length s1 + String.length s2)%nat).
  now f_equal.
Qed.

Lemma string_app_inv_tail (x y s : string) :
  (x ++ s = y ++ s)%string -> x = y.
Proof.
  revert y. induction x as [|c x IH]; intros [|d y] H.
  - reflexivity.
  - apply (f_equal String.length) in H.
    rewrite !string_length_app in H. simpl in H. lia.
  - apply (f_equal String.length) in H.
    rewrite !string_length_app in H. simpl in H. lia.
  - change (String c (x ++ s) = String d (y ++ s))%string in H.
    injection H as -> H. f_equal. now apply IH.
Qed.

(** X28.  [Socials] renders one link for each entry of
    [speaker.socials], in their order, and none when the speaker has no
    socials; the link of an entry has its [url], or "#" when the [url]
    is missing or empty, so that no [href] is empty; and for a given
    variant, entries with different keys have different icons. *)
Theorem Socials_links (speakerName : string)
    (socials : option (list (string * Js.value))) (variant : option string) :
  let links := Socials speakerName socials variant in
  length links = length (default [] socials) /\
  (forall k key url,
     default [] socials !! k = Some (key, url) ->
     exists link,
       links !! k = Some link /\
       link_key link = key /\
       href link = match url with
                   | Some u => if decide (u = "") then "#" else u
                   | None => "#"
                   end /\
       alt link = (speakerName ++ " " ++ key)%string) /\
  Forall (fun link => href link <> "") links /\
  (NoDup (map fst (default [] socials)) -> NoDup (map src links)).
Proof.
  cbv zeta. unfold Socials.
  destruct socials as [entries|]; cbn [default].
  2:{ repeat split; try constructor. intros k key url Hk. inversion Hk. }
  unfold id. split; [apply length_map|]. split; [|split].
  - intros k key url Hk.
    change (map ?f ?l) with (f <$> l). rewrite list_lookup_fmap, Hk.
    cbn [fmap option_fmap option_map]. eexists. split; [reflexivity|].
    cbn [link_key href alt]. repeat split.
    destruct url as [u|]; cbn [Js.or_else]; [|reflexivity].
    destruct (String.eqb_spec u ""), (decide (u = "")); congruence.
  - apply List.Forall_forall. intros link Hlink.
    apply in_map_iff in Hlink as ([key url] & <- & _). cbn [href].
    destruct url as [u|]; cbn [Js.or_else]; [|discriminate].
    destruct (String.eqb_spec u ""); [discriminate|assumption].
  - intros Hnd. rewrite map_map.
    induction entries as [|[key url] entries IH]; [constructor|].
    cbn [map fst] in Hnd |- *. apply NoDup_cons in Hnd as [Hnotin Hnd].
    apply NoDup_cons. split; [|now apply IH].
    intros Hin. apply Hnotin.
    apply list_elem_of_In, in_map_iff in Hin as ([key' url'] & Heq & Hin).
    cbn [src] in Heq.
    apply String.app_inj, string_app_inv_tail in Heq.
    assert (key' = key) as ->.
    { match type of Heq with
      | context [if ?b then _ else _] => destruct b
      end; [now apply string_app_inv_tail in Heq|exact Heq]. }
    apply list_elem_of_In, in_map_iff. exists (key, url'). now split.
Qed.

Lemma Socials_links_witness :
  NoDup (map src
           (Socials "Ada"
              (Some [("github", Some "https://github.com/ada");
                     ("website", Some "")])
              (Some "dark"))).
Proof.
  apply (proj2 (proj2 (proj2 (Socials_links "Ada"
           (Some [("github", Some "https://github.com/ada"); ("website", Some "")])
           (Some "dark"))))).
  cbn [default map fst].
  apply NoDup_cons. split; [|apply NoDup_singleton].
  intros H. apply list_elem_of_singleton in H. discriminate H.
Defined.
